(** * Interactive homography: coordinate mapping and rectification

    A shallow embedding of [interactive_homography.py]: the class
    [InteractiveHomography] (constructor, [mouse_callback],
    [select_corners], [transform]) and the entry point
    [interactive_transform], over an explicit store of image buffers, with Python's [float] as IEEE 754 binary64 and NumPy's
    ["float32"] as binary32, both through the bit-level specification of
    the standard library ([SpecFloat]). *)

From Stdlib Require Import ZArith List Bool Lia QArith Qround Psatz.
From Stdlib Require Import Floats.SpecFloat.
From stdpp Require Import gmap strings pretty.

Local Open Scope Z_scope.

(** ** Exceptions and results *)

(** The messages of the three [raise ValueError(...)] statements. *)
Inductive message : Type :=
  | CannotReadImage (image_path : string) (* __init__, line 19 *)
  | NeedFourCorners                       (* select_corners, line 96 *)
  | NeedCornersFirst.                     (* transform, line 104 *)

Inductive exn : Type :=
  | ValueError (msg : message)
  | FloatToIntError   (* int(nan): ValueError raised by the interpreter *)
  | OverflowError     (* int too large for a float, int(inf) *)
  | IndexError        (* list index out of range *)
  | CvError.          (* any exception raised inside an OpenCV call *)

Inductive result (A : Type) : Type :=
  | Ok (a : A)
  | Raise (e : exn).
Arguments Ok {A} a.
Arguments Raise {A} e.

Definition result_bind {A B : Type} (r : result A) (k : A -> result B) : result B :=
  match r with
  | Ok a => k a
  | Raise e => Raise e
  end.

(** ** Floating point *)

Module F64.
(** Python's [float]: binary64. *)
Definition prec : Z := 53.
Definition emax : Z := 1024.

Definition mul : spec_float -> spec_float -> spec_float := SFmul prec emax.

(** The literal [2.0]. *)
Definition two : spec_float := S754_finite false 4503599627370496 (-51).

(** [float(n)] for a Python [int]: nearest double, ties to even;
    [OverflowError] when the result is not finite. *)
Definition of_int (n : Z) : result spec_float :=
  match binary_normalize prec emax n 0 false with
  | S754_infinity _ => Raise OverflowError
  | f => Ok f
  end.
End F64.

Module F32.
(** NumPy's ["float32"]: binary32. *)
Definition prec : Z := 24.
Definition emax : Z := 128.

Definition add : spec_float -> spec_float -> spec_float := SFadd prec emax.
Definition sub : spec_float -> spec_float -> spec_float := SFsub prec emax.
Definition mul : spec_float -> spec_float -> spec_float := SFmul prec emax.
Definition sqrt : spec_float -> spec_float := SFsqrt prec emax.

(** The C cast [(float) d] of a double: round to nearest, ties to even. *)
Definition of_double (d : spec_float) : spec_float :=
  match d with
  | S754_finite s m e => binary_round prec emax s m e
  | _ => d
  end.

(** An [int] stored into a ["float32"] array: the element goes through a
    C double and is then cast to single precision. *)
Definition of_int (n : Z) : result spec_float :=
  result_bind (F64.of_int n) (fun d => Ok (of_double d)).
End F32.

(** [int(f)]: truncation toward zero; [int(nan)] and [int(inf)] raise. *)
Definition py_int (f : spec_float) : result Z :=
  match f with
  | S754_zero _ => Ok 0
  | S754_finite s m e => Ok (cond_Zopp s (Z.shiftl (Z.pos m) e))
  | S754_infinity _ => Raise OverflowError
  | S754_nan => Raise FloatToIntError
  end.

(** [n * f] for an [int] [n] and a [float] [f]: [n] is converted first. *)
Definition py_mul_int_float (n : Z) (f : spec_float) : result spec_float :=
  result_bind (F64.of_int n) (fun d => Ok (F64.mul d f)).

(** ** Python lists *)

(** [l[i]], with Python's negative indices. *)
Definition py_index {A : Type} (l : list A) (i : Z) : result A :=
  let n := Z.of_nat (length l) in
  let j := if i <? 0 then i + n else i in
  if (j <? 0) || (n <=? j) then Raise IndexError
  else match nth_error l (Z.to_nat j) with
       | Some a => Ok a
       | None => Raise IndexError
       end.

(** ** The OpenCV calls of the program *)

Definition point : Type := Z * Z.
Definition color : Type := Z * Z * Z.
Definition fpoint : Type := spec_float * spec_float.

(** An image array: [shape[:2]] and the pixel contents. *)
Record ndarray (pixels : Type) : Type := Ndarray {
  rows : Z;
  cols : Z;
  data : pixels
}.
Arguments Ndarray {pixels} rows cols data.
Arguments rows {pixels} n.
Arguments cols {pixels} n.
Arguments data {pixels} n.

(** The library is external to the program: what it computes is left
    open, how the program calls it is fixed.  The drawing calls work in
    place on their first argument; [resize] and [warpPerspective] return a
    new array; [findHomography] returns a matrix or [None]. *)
Class OpenCV : Type := {
  pixels : Type;
  matrix : Type;
  imread : string -> option (ndarray pixels);
  resize : ndarray pixels -> Z * Z -> result (ndarray pixels);
  circle : ndarray pixels -> point -> Z -> color -> Z -> result (ndarray pixels);
  putText : ndarray pixels -> string -> point -> Z -> spec_float -> color -> Z ->
            result (ndarray pixels);
  line : ndarray pixels -> point -> point -> color -> Z -> result (ndarray pixels);
  findHomography : list fpoint -> list fpoint -> result (option matrix);
  warpPerspective : ndarray pixels -> option matrix -> Z * Z -> result (ndarray pixels)
}.

Definition EVENT_LBUTTONDOWN : Z := 1.
Definition FONT_HERSHEY_SIMPLEX : Z := 0.

(** The literal [0.7]. *)
Definition font_scale : spec_float := S754_finite false 6305039478318694 (-53).

(** ** NumPy on corner arrays *)

(** [np.array(l, dtype="float32")] for a list of integer points. *)
Fixpoint np_array_float32 (l : list point) : result (list fpoint) :=
  match l with
  | [] => Ok []
  | (x, y) :: r =>
      result_bind (F32.of_int x) (fun fx =>
      result_bind (F32.of_int y) (fun fy =>
      result_bind (np_array_float32 r) (fun fr => Ok ((fx, fy) :: fr))))
  end.

(** [p - q] on two rows of the array. *)
Definition np_sub (p q : fpoint) : fpoint :=
  (F32.sub (fst p) (fst q), F32.sub (snd p) (snd q)).

(** [np.linalg.norm(v)] for a row [v]: [sqrt(v.dot(v))], all in single
    precision since the array is ["float32"]. *)
Definition np_linalg_norm (v : fpoint) : spec_float :=
  F32.sqrt (F32.add (F32.mul (fst v) (fst v)) (F32.mul (snd v) (snd v))).

(** Lines 112-118 of [transform]: the output size from the four corners. *)
Definition compute_output_size (corners : list fpoint) : result (Z * Z) :=
  match corners with
  | [c0; c1; c2; c3] =>
      let widthA := np_linalg_norm (np_sub c2 c3) in
      let widthB := np_linalg_norm (np_sub c1 c0) in
      result_bind (py_int widthA) (fun wa =>
      result_bind (py_int widthB) (fun wb =>
      let max_width := Z.max wa wb in
      let heightA := np_linalg_norm (np_sub c1 c2) in
      let heightB := np_linalg_norm (np_sub c0 c3) in
      result_bind (py_int heightA) (fun ha =>
      result_bind (py_int heightB) (fun hb =>
      let max_height := Z.max ha hb in
      Ok (max_width, max_height)))))
  | _ => Raise IndexError
  end.

(** Lines 123-128 of [transform]: the destination quadrilateral. *)
Definition destination (max_width max_height : Z) : result (list fpoint) :=
  np_array_float32
    [(0, 0); (max_width - 1, 0); (max_width - 1, max_height - 1); (0, max_height - 1)].

(** [os.getcwd().replace('\\', '/')] *)
Fixpoint replace_backslash (s : string) : string :=
  match s with
  | EmptyString => EmptyString
  | String c r =>
      String (if Ascii.eqb c (Ascii.ascii_of_nat 92) then Ascii.ascii_of_nat 47 else c)
             (replace_backslash r)
  end.

(** ** The session object and the store of image buffers *)

Definition loc : Type := positive.

(** The fields of [self]; the three images are references into the store.
    [window_name] is a constant of the window system and is left out. *)
Record InteractiveHomography : Type := Session {
  image_path : string;
  image : loc;
  original_image : loc;
  original_height : Z;
  original_width : Z;
  display_width : Z;
  display_height : Z;
  scale_factor : spec_float;
  display_image : loc;
  corners : list point;
  original_corners : list point
}.

Definition set_corners (l : list point) (s : InteractiveHomography) :=
  Session (image_path s) (image s) (original_image s) (original_height s)
          (original_width s) (display_width s) (display_height s)
          (scale_factor s) (display_image s) l (original_corners s).

Definition set_original_corners (l : list point) (s : InteractiveHomography) :=
  Session (image_path s) (image s) (original_image s) (original_height s)
          (original_width s) (display_width s) (display_height s)
          (scale_factor s) (display_image s) (corners s) l.

Abbreviation buffer := (ndarray pixels).
Abbreviation heap := (gmap loc (ndarray pixels)).

Section Program.
Context `{cv : OpenCV}.

(** A method of the object: it may change [self] and the store, and it
    returns or raises.  The changes made before an exception stay. *)
Definition M (A : Type) : Type :=
  InteractiveHomography -> heap -> InteractiveHomography * heap * result A.

Definition ret {A : Type} (a : A) : M A := fun s h => (s, h, Ok a).

Definition bind {A B : Type} (m : M A) (k : A -> M B) : M B :=
  fun s h =>
    match m s h with
    | (s', h', Ok a) => k a s' h'
    | (s', h', Raise e) => (s', h', Raise e)
    end.

Definition lift {A : Type} (r : result A) : M A := fun s h => (s, h, r).

Definition gets {A : Type} (f : InteractiveHomography -> A) : M A :=
  fun s h => (s, h, Ok (f s)).

Definition modify (f : InteractiveHomography -> InteractiveHomography) : M unit :=
  fun s h => (f s, h, Ok tt).

(** A call that works in place on the buffer at [l]. *)
Definition in_place (l : loc) (f : buffer -> result buffer) : M unit :=
  fun s h =>
    match h !! l with
    | None => (s, h, Raise CvError)
    | Some b =>
        match f b with
        | Ok b' => (s, <[l := b']> h, Ok tt)
        | Raise e => (s, h, Raise e)
        end
    end.

(** A new array: a location not yet in the store. *)
Definition alloc (b : buffer) (h : heap) : loc * heap :=
  let l := fresh (dom h) in (l, <[l := b]> h).

(** The array behind a reference. *)
Definition read (l : loc) : M buffer :=
  fun s h =>
    match h !! l with
    | None => (s, h, Raise CvError)
    | Some b => (s, h, Ok b)
    end.

(** A call that returns a new array, or raises. *)
Definition new_array (r : result buffer) : M loc :=
  fun s h =>
    match r with
    | Raise e => (s, h, Raise e)
    | Ok b => let '(l, h') := alloc b h in (s, h', Ok l)
    end.

#[local] Instance M_ret : MRet M := @ret.
#[local] Instance M_bind : MBind M := fun A B k m => bind m k.

(** *** [mouse_callback] (lines 42-77) *)

(** Lines 53-77: the marker, its label and the connecting segments, all
    drawn on the preview.  [print] and [cv2.imshow] leave the object and
    the image buffers as they are and are not modelled. *)
Definition draw_feedback (x y : Z) : M unit :=
  img ← gets display_image;
  in_place img (fun b => circle b (x, y) 5 (0, 255, 0) (-1));;
  n ← gets (fun s => length (corners s));
  in_place img (fun b => putText b (pretty n) (x + 10, y - 10)
                           FONT_HERSHEY_SIMPLEX font_scale (255, 0, 0) 2);;
  (if (1 <? n)%nat then
     cs ← gets corners;
     p ← lift (py_index cs (-2));
     q ← lift (py_index cs (-1));
     in_place img (fun b => line b p q (0, 0, 255) 2)
   else ret tt);;
  (if (n =? 4)%nat then
     cs ← gets corners;
     p ← lift (py_index cs 3);
     q ← lift (py_index cs 0);
     in_place img (fun b => line b p q (0, 0, 255) 2)
   else ret tt).

Definition mouse_callback (event x y flags : Z) : M unit :=
  n0 ← gets (fun s => length (corners s));
  if (event =? EVENT_LBUTTONDOWN) && (n0 <? 4)%nat then
    modify (fun s => set_corners (corners s ++ [(x, y)]) s);;
    k ← gets scale_factor;
    original_x ← lift (result_bind (py_mul_int_float x k) py_int);
    original_y ← lift (result_bind (py_mul_int_float y k) py_int);
    modify (fun s => set_original_corners
                       (original_corners s ++ [(original_x, original_y)]) s);;
    draw_feedback x y
  else ret tt.

(** *** [__init__] (lines 14-35) *)

Definition init (cwd path : string) (h : heap) : heap * result InteractiveHomography :=
  let X := replace_backslash cwd in
  let image_path := (X +:+ "/interactive/" +:+ path)%string in
  match imread image_path with
  | None => (h, Raise (ValueError (CannotReadImage path)))
  | Some img =>
      let '(l_image, h1) := alloc img h in
      let '(l_original, h2) := alloc img h1 in
      let original_height := rows img in
      let original_width := cols img in
      let display_width := original_width / 2 in
      let display_height := original_height / 2 in
      match resize img (display_width, display_height) with
      | Raise e => (h2, Raise e)
      | Ok small =>
          let '(l_display, h3) := alloc small h2 in
          (h3, Ok (Session image_path l_image l_original original_height
                           original_width display_width display_height
                           F64.two l_display [] []))
      end
  end.

(** *** [select_corners] (lines 79-99) *)

Record mouse_event : Type := MouseEvent {
  ev_event : Z;
  ev_x : Z;
  ev_y : Z;
  ev_flags : Z
}.

(** [cv2.waitKey(0)]: the window system calls [mouse_callback] once for
    every pointer event until a key is pressed.  An exception raised by
    the callback is printed by the binding and does not leave the wait. *)
Fixpoint dispatch (events : list mouse_event) : M unit :=
  match events with
  | [] => ret tt
  | e :: r =>
      fun s h =>
        let '(s', h', _) := mouse_callback (ev_event e) (ev_x e) (ev_y e) (ev_flags e) s h in
        dispatch r s' h'
  end.

Definition select_corners (events : list mouse_event) : M (list fpoint) :=
  dispatch events;;
  n ← gets (fun s => length (corners s));
  if negb (n =? 4)%nat then lift (Raise (ValueError NeedFourCorners))
  else
    oc ← gets original_corners;
    lift (np_array_float32 oc).

(** *** [transform] (lines 101-139) *)

Definition transform (output_size : option (Z * Z)) : M (loc * option matrix) :=
  n ← gets (fun s => length (original_corners s));
  if negb (n =? 4)%nat then lift (Raise (ValueError NeedCornersFirst))
  else
    oc ← gets original_corners;
    corners ← lift (np_array_float32 oc);
    '(max_width, max_height) ←
      match output_size with
      | None => lift (compute_output_size corners)
      | Some size => ret size
      end;
    dst ← lift (destination max_width max_height);
    H ← lift (findHomography corners dst);
    src ← gets original_image;
    b ← read src;
    warped ← new_array (warpPerspective b H (max_width, max_height));
    ret (warped, H).

End Program.

(** ** Reference notions for the statements *)

(** The coordinates the window system hands to the callback are C [int]s. *)
Definition INT_MIN : Z := - 2 ^ 31.
Definition INT_MAX : Z := 2 ^ 31 - 1.
Definition c_int (z : Z) : Prop := INT_MIN <= z <= INT_MAX.

(** [floor(x * k)] for the inverse scale [k = 2.0], in exact arithmetic. *)
Definition map_to_source (x : Z) : Z := Qfloor (inject_Z x * 2)%Q.

(** The squared Euclidean distance of two integer points. *)
Definition sqdist (p q : point) : Z :=
  (fst p - fst q) * (fst p - fst q) + (snd p - snd q) * (snd p - snd q).

(** The output size as the specification words it:
    [W = floor(max(|c2 - c3|, |c1 - c0|))], [H = floor(max(|c1 - c2|, |c0 - c3|))]
    with Euclidean lengths.  The floor of a square root is [Z.sqrt], and
    the root of the larger square is the larger root. *)
Definition euclid_output_size (c0 c1 c2 c3 : point) : Z * Z :=
  (Z.sqrt (Z.max (sqdist c2 c3) (sqdist c1 c0)),
   Z.sqrt (Z.max (sqdist c1 c2) (sqdist c0 c3))).

Definition translate (t p : point) : point := (fst p + fst t, snd p + snd t).

(** Both coordinates are integers that single precision holds exactly. *)
Definition small_point (p : point) : Prop :=
  Z.abs (fst p) < 2 ^ 24 /\ Z.abs (snd p) < 2 ^ 24.

(** The nearest single-precision float of an integer. *)
Definition round32 (z : Z) : spec_float := binary_normalize F32.prec F32.emax z 0 false.

(** The float of a positive integer below [2^prec]: the integer itself,
    moved up to a full mantissa. *)
Definition int_exponent (prec : Z) (p : positive) : Z := Z.pos (digits2_pos p) - prec.

Definition int_mantissa (prec : Z) (p : positive) : positive :=
  match (prec - Z.pos (digits2_pos p))%Z with
  | Z.pos k => Pos.iter xO p k
  | _ => p
  end.

(** Whether a rounding location makes round-to-nearest go up (a square
    root is never a tie). *)
Definition round_up (l : location) : Z :=
  match l with
  | loc_Inexact Gt => 1
  | _ => 0
  end.

(** The source point of a preview point. *)
(** A row of the corner array for an integer point. *)
Definition to_float32 (p : point) : fpoint := (round32 (fst p), round32 (snd p)).

Definition to_source (p : point) : point := (2 * fst p, 2 * snd p).

Definition is_left_click (e : mouse_event) : bool := ev_event e =? EVENT_LBUTTONDOWN.

(** The positions of the left-button presses, in the order they arrive. *)
Definition left_clicks (events : list mouse_event) : list point :=
  map (fun e => (ev_x e, ev_y e)) (List.filter is_left_click events).

Definition c_int_event (e : mouse_event) : Prop := c_int (ev_x e) /\ c_int (ev_y e).

(** The event lies inside the preview window of the session. *)
Definition in_preview (s : InteractiveHomography) (e : mouse_event) : Prop :=
  0 <= ev_x e < display_width s /\ 0 <= ev_y e < display_height s.

Definition even_point (p : point) : Prop := Z.even (fst p) = true /\ Z.even (snd p) = true.

(** The destination quadrilateral as the specification words it. *)
Definition dest_points (W H : Z) : list point :=
  [(0, 0); (W - 1, 0); (W - 1, H - 1); (0, H - 1)].

(** *** Homographies in exact arithmetic *)

Record matrix3 : Type := Matrix3 {
  h11 : Q; h12 : Q; h13 : Q;
  h21 : Q; h22 : Q; h23 : Q;
  h31 : Q; h32 : Q; h33 : Q
}.



(** [H] sends [p] to [q]: the projective image of [p] is a finite point
    and that point is [q]. *)
Definition maps_to (H : matrix3) (p q : Q * Q) : Prop :=
  let w := (h31 H * fst p + h32 H * snd p + h33 H)%Q in
  ~ (w == 0)%Q
  /\ (h11 H * fst p + h12 H * snd p + h13 H == fst q * w)%Q
  /\ (h21 H * fst p + h22 H * snd p + h23 H == snd q * w)%Q.

(** An exact solution of a point correspondence, normalised so that the
    bottom-right entry is 1. *)
Definition exact_homography (H : matrix3) (src dst : list (Q * Q)) : Prop :=
  (h33 H == 1)%Q /\ Forall2 (maps_to H) src dst.

Definition is_identity (H : matrix3) : Prop :=
  (h11 H == 1 /\ h12 H == 0 /\ h13 H == 0 /\
   h21 H == 0 /\ h22 H == 1 /\ h23 H == 0 /\
   h31 H == 0 /\ h32 H == 0 /\ h33 H == 1)%Q.




(** ** Frame conditions on methods *)

Section Frames.
Context `{cv : OpenCV}.

(** [h'] differs from [h] at most in the contents of the buffer at [l]. *)
Definition frame (l : loc) (h h' : heap) : Prop :=
  dom h' = dom h /\ forall l', l' <> l -> h' !! l' = h !! l'.

(** A computation that leaves [self] alone and writes to the buffer at
    [l] only. *)
Definition touches {A : Type} (l : loc) (m : M A) : Prop :=
  forall s h, exists h' r, m s h = (s, h', r) /\ frame l h h'.

(** The point lists never hold more than four points, and the source
    list is never ahead of the preview list. *)
Definition lists_bounded (s : InteractiveHomography) : Prop :=
  (length (original_corners s) <= length (corners s) <= 4)%nat.

(** The three image references of a session are distinct buffers of the
    store. *)
Definition separate (s : InteractiveHomography) (h : heap) : Prop :=
  image s ∈ dom h /\ original_image s ∈ dom h /\ display_image s ∈ dom h
  /\ image s <> display_image s /\ original_image s <> display_image s
  /\ image s <> original_image s.

(** A computation that leaves [self] and every existing buffer alone and
    at most adds one new buffer, the one it returns. *)
Definition allocates {A : Type} (m : M (loc * A)) : Prop :=
  forall s h, exists h' r,
    m s h = (s, h', r)
    /\ match r with
       | Ok (w, _) => (w ∉ dom h) /\ exists b, h' = <[w := b]> h
       | Raise _ => h' = h
       end.

Definition reads_only {A : Type} (m : M A) : Prop :=
  forall s h, exists r, m s h = (s, h, r).

(** Lines 134-139 of [transform] on their own: the resampling of the
    source image through a homography [H] that is at hand. *)
Definition resample (H : option matrix) (size : Z * Z) : M (loc * option matrix) :=
  bind (gets original_image) (fun src =>
  bind (read src) (fun b =>
  bind (new_array (warpPerspective b H size)) (fun warped =>
  ret (warped, H)))).

(** Lines 109-139 of [transform] on their own: the rectification for a
    corner array that is at hand. *)
Definition rectify (corners : list fpoint) (output_size : option (Z * Z)) :
    M (loc * option matrix) :=
  bind (match output_size with
        | None => lift (compute_output_size corners)
        | Some size => ret size
        end) (fun size =>
  bind (lift (destination (fst size) (snd size))) (fun dst =>
  bind (lift (findHomography corners dst)) (fun H =>
  resample H size))).

End Frames.

(** ** The entry point [interactive_transform] (lines 142-186) *)

(** [cv2.imwrite(path, img)]: it answers whether the file was written, or
    raises; like the other calls of the library it is left open. *)
Class ImageIO `{cv : OpenCV} : Type := {
  imwrite : string -> ndarray pixels -> result bool
}.

(** The path of line 176. *)
Definition default_output_path : string := "interactive/interactive_result.jpg".

(** Lines 164-166: [int(corner[0])] and [int(corner[1])] for every row of
    the corner array; the result is the list of the pairs printed. *)
Fixpoint print_corners (corners : list fpoint) : result (list point) :=
  match corners with
  | [] => Ok []
  | corner :: r =>
      result_bind (py_int (fst corner)) (fun x =>
      result_bind (py_int (snd corner)) (fun y =>
      result_bind (print_corners r) (fun printed =>
      Ok ((x, y) :: printed))))
  end.

Section EntryPoint.
Context `{io : ImageIO}.

(** The function returns the store, the files it has written and its
    result.  The value [cv2.imwrite] returns is dropped by the program
    (line 177): a file is there only when that value was [True]. *)
Definition interactive_transform (cwd image_path : string) (output_path : option string)
    (events : list mouse_event) (h : heap) :
    heap * list (string * buffer) * result (loc * option matrix) :=
  match init cwd image_path h with
  | (h1, Raise e) => (h1, [], Raise e)
  | (h1, Ok transformer) =>
      match select_corners events transformer h1 with
      | (_, h2, Raise e) => (h2, [], Raise e)
      | (transformer1, h2, Ok corners) =>
          match print_corners corners with
          | Raise e => (h2, [], Raise e)
          | Ok _ =>
              match transform None transformer1 h2 with
              | (_, h3, Raise e) => (h3, [], Raise e)
              | (_, h3, Ok (warped, H)) =>
                  let output_path :=
                    match output_path with
                    | None => default_output_path
                    | Some p => p
                    end in
                  match h3 !! warped with
                  | None => (h3, [], Raise CvError)
                  | Some b =>
                      match imwrite output_path b with
                      | Raise e => (h3, [], Raise e)
                      | Ok true => (h3, [(output_path, b)], Ok (warped, H))
                      | Ok false => (h3, [], Ok (warped, H))
                      end
                  end
              end
          end
      end
  end.

End EntryPoint.

(** ** A test double of the library

    It records the drawing calls in the buffer, keeps the shape, and
    answers every homography request with the correspondence it was
    given.  It serves to run the program on concrete sessions. *)

Module Recorder.

Inductive drawing : Type :=
  | DCircle (center : point) (radius : Z) (c : color) (thickness : Z)
  | DText (text : string) (org : point) (font : Z) (scale : spec_float)
          (c : color) (thickness : Z)
  | DLine (p q : point) (c : color) (thickness : Z)
  | DResized (size : Z * Z)
  | DWarped (size : Z * Z).

Definition sample_path : string := "/work/interactive/example.jpg".

#[export] Instance recorder : OpenCV := {|
  pixels := list drawing;
  matrix := list fpoint * list fpoint;
  imread p := if String.eqb p sample_path then Some (Ndarray 480 640 []) else None;
  resize b size :=
    if (fst size <=? 0) || (snd size <=? 0) then Raise CvError
    else Ok (Ndarray (snd size) (fst size) (data b ++ [DResized size]));
  circle b center radius c thickness :=
    Ok (Ndarray (rows b) (cols b) (data b ++ [DCircle center radius c thickness]));
  putText b text org font scale c thickness :=
    Ok (Ndarray (rows b) (cols b) (data b ++ [DText text org font scale c thickness]));
  line b p q c thickness :=
    Ok (Ndarray (rows b) (cols b) (data b ++ [DLine p q c thickness]));
  findHomography src dst := Ok (Some (src, dst));
  warpPerspective b H size :=
    match H with
    | None => Raise CvError
    | Some _ => Ok (Ndarray (snd size) (fst size) (data b ++ [DWarped size]))
    end
|}.

(** Files are written unless the path is empty. *)
#[export] Instance recorder_io : ImageIO := {|
  imwrite p b := Ok (negb (String.eqb p EmptyString))
|}.

(** The same double with a solver that finds no homography: it answers
    [None], as [cv2.findHomography] does when it gives up. *)
Definition blind : OpenCV := {|
  pixels := list drawing;
  matrix := list fpoint * list fpoint;
  imread := imread (OpenCV := recorder);
  resize := resize (OpenCV := recorder);
  circle := circle (OpenCV := recorder);
  putText := putText (OpenCV := recorder);
  line := line (OpenCV := recorder);
  findHomography src dst := Ok None;
  warpPerspective := warpPerspective (OpenCV := recorder)
|}.

Definition click (x y : Z) : mouse_event := MouseEvent EVENT_LBUTTONDOWN x y 0.

Definition empty_store : heap := ∅.

(** The preview of the sample image, and a preview with the marker and
    the label of point [n] at [(x, y)] added. *)
Definition preview0 : buffer := Ndarray 240 320 [DResized (320, 240)].

Definition marked (x y : Z) (n : nat) (b : buffer) : buffer :=
  Ndarray (rows b) (cols b)
    ((data b ++ [DCircle (x, y) 5 (0, 255, 0) (-1)])
     ++ [DText (pretty n) (x + 10, y - 10) FONT_HERSHEY_SIMPLEX font_scale (255, 0, 0) 2]).

(** A session on the sample image, before any click. *)
Definition start : heap * result InteractiveHomography :=
  init "/work" "example.jpg" ∅.

(** What [start] evaluates to: the object and the three buffers. *)
Definition session0 : InteractiveHomography :=
  Session sample_path 1%positive 2%positive 480 640 320 240 F64.two 3%positive [] [].

Definition store0 : heap :=
  <[3%positive := Ndarray 240 320 [DResized (320, 240)]]>
    (<[2%positive := Ndarray 480 640 []]> (<[1%positive := Ndarray 480 640 []]> ∅)).

End Recorder.

(** * Facts about the floating-point specification *)

Section SpecFloatFacts.
Variables prec emax : Z.

Lemma iter_pos_comm {A : Type} (f : A -> A) (p : positive) (x : A) :
  SpecFloat.iter_pos f p (f x) = f (SpecFloat.iter_pos f p x).
Proof.
  revert x. induction p as [p IH | p IH |]; intros x; simpl.
  - now rewrite !IH.
  - now rewrite !IH.
  - reflexivity.
Qed.

Lemma iter_pos_succ {A : Type} (f : A -> A) (p : positive) (x : A) :
  SpecFloat.iter_pos f (Pos.succ p) x = SpecFloat.iter_pos f p (f x).
Proof.
  revert x. induction p as [p IH | p IH |]; intros x; simpl.
  - rewrite !IH. now rewrite <- !iter_pos_comm.
  - reflexivity.
  - reflexivity.
Qed.

Lemma digits2_pos_iter (m k : positive) :
  digits2_pos (Pos.iter xO m k) = (digits2_pos m + k)%positive.
Proof.
  induction k as [| k IH] using Pos.peano_ind.
  - simpl. lia.
  - rewrite Pos.iter_succ. simpl. rewrite IH. lia.
Qed.

Lemma Zpos_iter_xO (m k : positive) :
  Z.pos (Pos.iter xO m k) = Z.pos m * 2 ^ Z.pos k.
Proof.
  induction k as [| k IH] using Pos.peano_ind.
  - simpl. lia.
  - rewrite Pos.iter_succ, Pos2Z.inj_xO, IH, Pos2Z.inj_succ, Z.pow_succ_r by lia. lia.
Qed.

(** Shifting out [k] zero bits loses nothing. *)
Lemma shr_trailing_zeros (m k : positive) :
  SpecFloat.iter_pos shr_1 k (Build_shr_record (Z.pos (Pos.iter xO m k)) false false)
  = Build_shr_record (Z.pos m) false false.
Proof.
  induction k as [| k IH] using Pos.peano_ind.
  - reflexivity.
  - rewrite iter_pos_succ, Pos.iter_succ. simpl. exact IH.
Qed.

Lemma shr_fexp_canonical (m : positive) (e : Z) :
  fexp prec emax (Z.pos (digits2_pos m) + e) = e ->
  shr_fexp prec emax (Z.pos m) e loc_Exact = (Build_shr_record (Z.pos m) false false, e).
Proof.
  intros Hc. unfold shr_fexp. cbn [Zdigits2]. rewrite Hc, Z.sub_diag. reflexivity.
Qed.

Lemma shr_fexp_exact (m k : positive) (e : Z) :
  fexp prec emax (Z.pos (digits2_pos m) + e) = e ->
  shr_fexp prec emax (Z.pos (Pos.iter xO m k)) (e - Z.pos k) loc_Exact
  = (Build_shr_record (Z.pos m) false false, e).
Proof.
  intros Hc. unfold shr_fexp. cbn [Zdigits2].
  rewrite digits2_pos_iter, Pos2Z.inj_add.
  replace (Z.pos (digits2_pos m) + Z.pos k + (e - Z.pos k))
    with (Z.pos (digits2_pos m) + e) by lia.
  rewrite Hc. replace (e - (e - Z.pos k)) with (Z.pos k) by lia.
  cbn [shr shr_record_of_loc]. rewrite shr_trailing_zeros. f_equal. lia.
Qed.

(** The rounding of an exact mantissa, once it is in position. *)
Lemma binary_round_aux_finish (s : bool) (m : positive) (e : Z) (M : Z) (e0 : Z) :
  bounded prec emax m e = true ->
  shr_fexp prec emax M e0 loc_Exact = (Build_shr_record (Z.pos m) false false, e) ->
  binary_round_aux prec emax s M e0 loc_Exact = S754_finite s m e.
Proof.
  unfold bounded, canonical_mantissa. intros H Hs.
  apply andb_true_iff in H as [Hc Hb]. apply Z.eqb_eq in Hc.
  unfold binary_round_aux. rewrite Hs. cbn [shr_m loc_of_shr_record round_nearest_even].
  rewrite (shr_fexp_canonical m e Hc). cbn [shr_m]. now rewrite Hb.
Qed.

(** A mantissa already in canonical position is left alone. *)
Lemma binary_round_aux_canonical (s : bool) (m : positive) (e : Z) :
  bounded prec emax m e = true ->
  binary_round_aux prec emax s (Z.pos m) e loc_Exact = S754_finite s m e.
Proof.
  intros H. apply binary_round_aux_finish; [exact H |].
  apply shr_fexp_canonical. unfold bounded, canonical_mantissa in H.
  apply andb_true_iff in H as [Hc _]. now apply Z.eqb_eq in Hc.
Qed.

Lemma binary_round_aux_exact (s : bool) (m k : positive) (e : Z) :
  bounded prec emax m e = true ->
  binary_round_aux prec emax s (Z.pos (Pos.iter xO m k)) (e - Z.pos k) loc_Exact
  = S754_finite s m e.
Proof.
  intros H. apply binary_round_aux_finish; [exact H |].
  apply shr_fexp_exact. unfold bounded, canonical_mantissa in H.
  apply andb_true_iff in H as [Hc _]. now apply Z.eqb_eq in Hc.
Qed.

(** Rounding depends on the value [m * 2^e] only: one more trailing
    zero bit and an exponent one lower give the same float. *)
Lemma binary_round_xO (s : bool) (m : positive) (e : Z) :
  binary_round prec emax s (xO m) (e - 1) = binary_round prec emax s m e.
Proof.
  unfold binary_round. cbn [digits2_pos]. rewrite Pos2Z.inj_succ.
  replace (Z.succ (Z.pos (digits2_pos m)) + (e - 1)) with (Z.pos (digits2_pos m) + e) by lia.
  set (E := fexp prec emax (Z.pos (digits2_pos m) + e)).
  unfold shl_align.
  destruct (E - e) as [| d | d] eqn:Hd.
  - (* already aligned: the longer mantissa is shifted back by one *)
    replace (E - (e - 1)) with 1 by lia.
    unfold binary_round_aux, shr_fexp. cbn [Zdigits2 digits2_pos].
    rewrite Pos2Z.inj_succ.
    replace (Z.succ (Z.pos (digits2_pos m)) + (e - 1)) with (Z.pos (digits2_pos m) + e) by lia.
    fold E. rewrite Hd. replace (E - (e - 1)) with 1 by lia.
    cbn [shr shr_record_of_loc SpecFloat.iter_pos shr_1 orb].
    replace (e - 1 + 1) with e by lia. reflexivity.
  - replace (E - (e - 1)) with (Z.pos (Pos.succ d)) by lia.
    unfold binary_round_aux, shr_fexp. cbn [Zdigits2 digits2_pos].
    rewrite Pos2Z.inj_succ.
    replace (Z.succ (Z.pos (digits2_pos m)) + (e - 1)) with (Z.pos (digits2_pos m) + e) by lia.
    fold E. rewrite Hd. replace (E - (e - 1)) with (Z.pos (Pos.succ d)) by lia.
    cbn [shr shr_record_of_loc]. rewrite iter_pos_succ. cbn [shr_1 orb].
    replace (e - 1 + Z.pos (Pos.succ d)) with (e + Z.pos d) by lia. reflexivity.
  - destruct (Pos.eq_dec d 1%positive) as [-> | Hne].
    + replace (E - (e - 1)) with 0 by lia. cbn [Pos.iter].
      replace (e - 1) with E by lia. reflexivity.
    + replace (E - (e - 1)) with (Z.neg (Pos.pred d)) by lia.
      replace d with (Pos.succ (Pos.pred d)) at 2 by (apply Pos.succ_pred; exact Hne).
      rewrite Pos.iter_succ_r. reflexivity.
Qed.

Lemma binary_round_shift (s : bool) (m k : positive) (e : Z) :
  binary_round prec emax s (Pos.iter xO m k) (e - Z.pos k) = binary_round prec emax s m e.
Proof.
  revert e. induction k as [| k IH] using Pos.peano_ind; intros e.
  - apply binary_round_xO.
  - rewrite Pos.iter_succ, Pos2Z.inj_succ.
    replace (e - Z.succ (Z.pos k)) with (e - Z.pos k - 1) by lia.
    rewrite binary_round_xO. apply IH.
Qed.

Lemma binary_round_canonical (s : bool) (m : positive) (e : Z) :
  bounded prec emax m e = true ->
  binary_round prec emax s m e = S754_finite s m e.
Proof.
  intros H. unfold binary_round.
  assert (Hc : fexp prec emax (Z.pos (digits2_pos m) + e) = e).
  { unfold bounded, canonical_mantissa in H.
    apply andb_true_iff in H as [Hc _]. now apply Z.eqb_eq in Hc. }
  rewrite Hc. unfold shl_align. rewrite Z.sub_diag.
  now apply binary_round_aux_canonical.
Qed.

Lemma digits2_pos_bounds (p : positive) :
  2 ^ (Z.pos (digits2_pos p) - 1) <= Z.pos p < 2 ^ Z.pos (digits2_pos p).
Proof.
  induction p as [p IH | p IH |]; cbn [digits2_pos].
  - rewrite Pos2Z.inj_succ, Z.pow_succ_r by lia.
    replace (Z.succ (Z.pos (digits2_pos p)) - 1) with (Z.succ (Z.pos (digits2_pos p) - 1)) by lia.
    rewrite Z.pow_succ_r by lia. lia.
  - rewrite Pos2Z.inj_succ, Z.pow_succ_r by lia.
    replace (Z.succ (Z.pos (digits2_pos p)) - 1) with (Z.succ (Z.pos (digits2_pos p) - 1)) by lia.
    rewrite Z.pow_succ_r by lia. lia.
  - simpl. lia.
Qed.

Lemma digits2_pos_le (p : positive) (n : Z) :
  Z.pos p < 2 ^ n -> Z.pos (digits2_pos p) <= n.
Proof.
  intros H. destruct (Z.le_gt_cases (Z.pos (digits2_pos p)) n) as [Hle | Hgt]; [exact Hle |].
  exfalso. destruct (digits2_pos_bounds p) as [Hlo _].
  assert (2 ^ n <= 2 ^ (Z.pos (digits2_pos p) - 1)).
  { destruct (Z.le_gt_cases 0 n).
    - apply Z.pow_le_mono_r; lia.
    - rewrite (Z.pow_neg_r 2 n) by lia. apply Z.pow_nonneg. lia. }
  lia.
Qed.

(** The same with the mantissa given by its value. *)
Lemma binary_round_aux_exact_Z (s : bool) (m : positive) (e k : Z) (M : Z) :
  bounded prec emax m e = true -> 0 <= k -> M = Z.pos m * 2 ^ k ->
  binary_round_aux prec emax s M (e - k) loc_Exact = S754_finite s m e.
Proof.
  intros H Hk ->. destruct k as [| k | k]; try lia.
  - rewrite Z.mul_1_r, Z.sub_0_r. now apply binary_round_aux_canonical.
  - rewrite <- Zpos_iter_xO. now apply binary_round_aux_exact.
Qed.

Lemma binary_normalize_shift (z e k : Z) (sz : bool) :
  0 <= k ->
  binary_normalize prec emax (z * 2 ^ k) (e - k) sz = binary_normalize prec emax z e sz.
Proof.
  intros Hk. destruct k as [| k | k]; try lia.
  - now rewrite Z.mul_1_r, Z.sub_0_r.
  - destruct z as [| p | p].
    + reflexivity.
    + rewrite <- Zpos_iter_xO. cbn [binary_normalize]. apply binary_round_shift.
    + change (Z.neg p) with (- Z.pos p). rewrite Z.mul_opp_l, <- Zpos_iter_xO.
      cbn [Z.opp binary_normalize]. apply binary_round_shift.
Qed.

Lemma int_exponent_nonpos (p : positive) :
  Z.pos p < 2 ^ prec -> int_exponent prec p <= 0.
Proof.
  intros Hp. pose proof (digits2_pos_le p prec Hp). unfold int_exponent. lia.
Qed.

Hypothesis prec_pos : 0 < prec.
Hypothesis prec_emax : prec <= emax.
Hypothesis emax_2 : 2 <= emax.

Lemma int_mantissa_value (p : positive) :
  Z.pos p < 2 ^ prec ->
  Z.pos (int_mantissa prec p) = Z.pos p * 2 ^ (- int_exponent prec p).
Proof using prec_pos prec_emax emax_2.
  intros Hp. pose proof (digits2_pos_le p prec Hp) as Hd.
  unfold int_mantissa, int_exponent.
  destruct (prec - Z.pos (digits2_pos p)) as [| k | k] eqn:Hk; try lia.
  - replace (- (Z.pos (digits2_pos p) - prec)) with 0 by lia. lia.
  - rewrite Zpos_iter_xO. f_equal. f_equal. lia.
Qed.

Lemma int_bounded (p : positive) :
  Z.pos p < 2 ^ prec ->
  bounded prec emax (int_mantissa prec p) (int_exponent prec p) = true.
Proof using prec_pos prec_emax emax_2.
  intros Hp. pose proof (digits2_pos_le p prec Hp) as Hd.
  unfold bounded, canonical_mantissa, int_mantissa, int_exponent, fexp, emin.
  apply andb_true_iff. split; [apply Z.eqb_eq | apply Z.leb_le; lia].
  destruct (prec - Z.pos (digits2_pos p)) as [| k | k] eqn:Hk; try lia.
  rewrite digits2_pos_iter, Pos2Z.inj_add. lia.
Qed.

Lemma binary_round_int (s : bool) (p : positive) :
  Z.pos p < 2 ^ prec ->
  binary_round prec emax s p 0 = S754_finite s (int_mantissa prec p) (int_exponent prec p).
Proof using prec_pos prec_emax emax_2.
  intros Hp. pose proof (digits2_pos_le p prec Hp) as Hd.
  rewrite <- (binary_round_canonical s _ _ (int_bounded p Hp)).
  unfold int_mantissa, int_exponent.
  destruct (prec - Z.pos (digits2_pos p)) as [| k | k] eqn:Hk; try lia.
  - f_equal. lia.
  - replace (Z.pos (digits2_pos p) - prec) with (0 - Z.pos k) by lia.
    now rewrite binary_round_shift.
Qed.

Lemma int_mantissa_digits (p : positive) :
  Z.pos p < 2 ^ prec -> Z.pos (digits2_pos (int_mantissa prec p)) = prec.
Proof using prec_pos prec_emax emax_2.
  intros Hp. pose proof (digits2_pos_le p prec Hp) as Hd.
  unfold int_mantissa.
  destruct (prec - Z.pos (digits2_pos p)) as [| k | k] eqn:Hk; try lia.
  rewrite digits2_pos_iter, Pos2Z.inj_add. lia.
Qed.

Lemma binary_normalize_int (z : Z) :
  z <> 0 -> Z.abs z < 2 ^ prec ->
  binary_normalize prec emax z 0 false
  = S754_finite (z <? 0) (int_mantissa prec (Z.to_pos (Z.abs z))) (int_exponent prec (Z.to_pos (Z.abs z))).
Proof using prec_pos prec_emax emax_2.
  intros Hz Hb. destruct z as [| p | p]; [easy | |]; cbn [binary_normalize Z.abs Z.to_pos].
  - now apply binary_round_int.
  - now apply binary_round_int.
Qed.
End SpecFloatFacts.

(** ** The conversions of the program *)

Lemma F64_of_int_exact (z : Z) :
  z <> 0 -> Z.abs z < 2 ^ 53 ->
  F64.of_int z = Ok (S754_finite (z <? 0) (int_mantissa 53 (Z.to_pos (Z.abs z)))
                                 (int_exponent 53 (Z.to_pos (Z.abs z)))).
Proof.
  intros Hz Hb. unfold F64.of_int, F64.prec, F64.emax.
  rewrite binary_normalize_int by (try assumption; lia). reflexivity.
Qed.

Lemma shiftl_scaled (a k : Z) :
  0 <= k -> Z.shiftl (a * 2 ^ k) (1 - k) = 2 * a.
Proof.
  intros Hk. destruct (Z.eq_dec k 0) as [-> | Hne].
  - rewrite Z.shiftl_mul_pow2 by lia. simpl. lia.
  - replace (1 - k) with (- (k - 1)) by lia. rewrite Z.shiftl_opp_r.
    rewrite Z.shiftr_div_pow2 by lia.
    replace (2 ^ k) with (2 * 2 ^ (k - 1)).
    + replace (a * (2 * 2 ^ (k - 1))) with (2 * a * 2 ^ (k - 1)) by lia.
      apply Z.div_mul. apply Z.pow_nonzero; lia.
    + rewrite <- Z.pow_succ_r by lia. f_equal. lia.
Qed.

(** [int(n * 2.0)] is [2 * n] as long as [n] fits the 53 bits of a double. *)
Lemma py_int_mul_two (z : Z) :
  Z.abs z < 2 ^ 53 ->
  result_bind (py_mul_int_float z F64.two) py_int = Ok (2 * z).
Proof.
  intros Hb. destruct (Z.eq_dec z 0) as [-> | Hz]; [reflexivity |].
  unfold py_mul_int_float. rewrite F64_of_int_exact by assumption.
  set (p := Z.to_pos (Z.abs z)).
  assert (Hp : Z.pos p < 2 ^ 53) by (unfold p; rewrite Z2Pos.id; lia).
  cbn [result_bind]. unfold F64.mul, F64.two, SFmul.
  rewrite xorb_false_r.
  pose proof (int_bounded 53 1024 ltac:(lia) ltac:(lia) ltac:(lia) p Hp) as Hbd.
  pose proof (int_mantissa_digits 53 1024 ltac:(lia) ltac:(lia) ltac:(lia) p Hp) as Hdig.
  pose proof (int_exponent_nonpos 53 p Hp) as Hexp.
  pose proof (int_mantissa_value 53 1024 ltac:(lia) ltac:(lia) ltac:(lia) p Hp) as Hval.
  set (M := int_mantissa 53 p) in *. set (E := int_exponent 53 p) in *.
  assert (Hbd' : bounded 53 1024 M (E + 1) = true).
  { unfold bounded, canonical_mantissa, fexp, emin in *.
    apply andb_true_iff in Hbd as [Hc Hl]. apply Z.eqb_eq in Hc. apply Z.leb_le in Hl.
    apply andb_true_iff. split; [apply Z.eqb_eq | apply Z.leb_le]; lia. }
  replace (E + -51) with (E + 1 - 52) by lia.
  rewrite (binary_round_aux_exact_Z 53 1024 (z <? 0) M (E + 1) 52 _ Hbd')
    by (try lia; rewrite Pos2Z.inj_mul; reflexivity).
  cbn [py_int]. f_equal. rewrite Hval.
  replace (E + 1) with (1 - (- E)) by lia. rewrite shiftl_scaled by lia.
  unfold p. destruct z; cbn; lia.
Qed.

Lemma F32_of_int_round (z : Z) :
  Z.abs z < 2 ^ 53 -> F32.of_int z = Ok (round32 z).
Proof.
  intros Hb. destruct (Z.eq_dec z 0) as [-> | Hz]; [reflexivity |].
  unfold F32.of_int. rewrite F64_of_int_exact by assumption.
  cbn [result_bind F32.of_double]. f_equal.
  set (p := Z.to_pos (Z.abs z)).
  assert (Hp : Z.pos p < 2 ^ 53) by (unfold p; rewrite Z2Pos.id; lia).
  pose proof (digits2_pos_le p 53 Hp) as Hd.
  assert (Hr : round32 z = binary_round F32.prec F32.emax (z <? 0) p 0).
  { unfold round32, p. destruct z; try easy. }
  rewrite Hr. unfold int_mantissa, int_exponent.
  destruct (53 - Z.pos (digits2_pos p)) as [| k | k] eqn:Hk; try lia.
  - f_equal. lia.
  - replace (Z.pos (digits2_pos p) - 53) with (0 - Z.pos k) by lia.
    apply binary_round_shift.
Qed.

Lemma shl_align_value (m : positive) (e e' : Z) :
  e' <= e -> Z.pos (fst (shl_align m e e')) = Z.pos m * 2 ^ (e - e').
Proof.
  intros H. unfold shl_align.
  destruct (e' - e) as [| d | d] eqn:Hd; try lia.
  - replace (e - e') with 0 by lia. cbn [fst]. lia.
  - cbn [fst]. rewrite Zpos_iter_xO. f_equal. f_equal. lia.
Qed.

(** A single-precision integer, as a sign and a scaled mantissa. *)
Lemma round32_finite (z : Z) :
  z <> 0 -> Z.abs z < 2 ^ 24 ->
  exists (m : positive) (e : Z),
    round32 z = S754_finite (z <? 0) m e /\ e <= 0 /\
    Z.pos m = Z.abs z * 2 ^ (- e) /\ bounded 24 128 m e = true.
Proof.
  intros Hz Hb.
  set (p := Z.to_pos (Z.abs z)).
  assert (Hp : Z.pos p < 2 ^ 24) by (unfold p; rewrite Z2Pos.id; lia).
  exists (int_mantissa 24 p), (int_exponent 24 p). repeat split.
  - unfold round32, F32.prec, F32.emax. now rewrite binary_normalize_int by lia.
  - now apply int_exponent_nonpos.
  - rewrite (int_mantissa_value 24 128) by (try assumption; lia).
    unfold p. rewrite Z2Pos.id by lia. reflexivity.
  - apply int_bounded; (assumption || lia).
Qed.

Lemma cond_Zopp_abs (z : Z) (a : Z) :
  cond_Zopp (z <? 0) (Z.abs z * a) = z * a.
Proof. destruct z; cbn; lia. Qed.

Lemma pow2_split (a b : Z) : 0 <= a -> 0 <= b -> 2 ^ a * 2 ^ b = 2 ^ (a + b).
Proof. intros. now rewrite Z.pow_add_r. Qed.

(** Sums and differences of single-precision integers are the rounded
    exact sums and differences. *)
Lemma F32_sub_round (a b : Z) :
  Z.abs a < 2 ^ 24 -> Z.abs b < 2 ^ 24 ->
  F32.sub (round32 a) (round32 b) = round32 (a - b).
Proof.
  intros Ha Hb.
  destruct (Z.eq_dec a 0) as [-> | Hna]; destruct (Z.eq_dec b 0) as [-> | Hnb].
  - reflexivity.
  - replace (0 - b) with (- b) by lia.
    change (round32 0) with (S754_zero false).
    unfold round32, F32.prec, F32.emax.
    rewrite !binary_normalize_int by lia.
    rewrite Z.abs_opp. cbn [F32.sub SFsub]. unfold F32.sub, SFsub.
    f_equal. destruct b; try easy.
  - destruct (round32_finite a Hna Ha) as (ma & ea & Ea & _ & _ & _).
    rewrite Z.sub_0_r. change (round32 0) with (S754_zero false). rewrite Ea. reflexivity.
  - destruct (round32_finite a Hna Ha) as (ma & ea & Ea & Hea & Hma & _).
    destruct (round32_finite b Hnb Hb) as (mb & eb & Eb & Heb & Hmb & _).
    rewrite Ea, Eb. unfold F32.sub, SFsub.
    set (ez := Z.min ea eb).
    rewrite !shl_align_value by (unfold ez; lia).
    rewrite Hma, Hmb, <- !Z.mul_assoc, !pow2_split by (unfold ez; lia).
    replace (- ea + (ea - ez)) with (- ez) by lia.
    replace (- eb + (eb - ez)) with (- ez) by lia.
    rewrite !cond_Zopp_abs, <- Z.mul_sub_distr_r.
    replace ez with (0 - (- ez)) at 2 by lia.
    unfold round32, F32.prec, F32.emax. apply binary_normalize_shift. unfold ez; lia.
Qed.

Lemma F32_add_round (a b : Z) :
  Z.abs a < 2 ^ 24 -> Z.abs b < 2 ^ 24 ->
  F32.add (round32 a) (round32 b) = round32 (a + b).
Proof.
  intros Ha Hb.
  destruct (Z.eq_dec a 0) as [-> | Hna]; destruct (Z.eq_dec b 0) as [-> | Hnb].
  - reflexivity.
  - destruct (round32_finite b Hnb Hb) as (mb & eb & Eb & _ & _ & _).
    rewrite Z.add_0_l. change (round32 0) with (S754_zero false). rewrite Eb. reflexivity.
  - destruct (round32_finite a Hna Ha) as (ma & ea & Ea & _ & _ & _).
    rewrite Z.add_0_r. change (round32 0) with (S754_zero false). rewrite Ea. reflexivity.
  - destruct (round32_finite a Hna Ha) as (ma & ea & Ea & Hea & Hma & _).
    destruct (round32_finite b Hnb Hb) as (mb & eb & Eb & Heb & Hmb & _).
    rewrite Ea, Eb. unfold F32.add, SFadd.
    set (ez := Z.min ea eb).
    rewrite !shl_align_value by (unfold ez; lia).
    rewrite Hma, Hmb, <- !Z.mul_assoc, !pow2_split by (unfold ez; lia).
    replace (- ea + (ea - ez)) with (- ez) by lia.
    replace (- eb + (eb - ez)) with (- ez) by lia.
    rewrite !cond_Zopp_abs, <- Z.mul_add_distr_r.
    replace ez with (0 - (- ez)) at 2 by lia.
    unfold round32, F32.prec, F32.emax. apply binary_normalize_shift. unfold ez; lia.
Qed.

Lemma F32_square_round (a : Z) :
  a * a < 2 ^ 24 ->
  F32.mul (round32 a) (round32 a) = round32 (a * a).
Proof.
  intros Hsq.
  destruct (Z.eq_dec a 0) as [-> | Hna]; [reflexivity |].
  assert (Ha : Z.abs a < 2 ^ 24) by nia.
  assert (Hq : a * a <> 0) by nia.
  assert (Hqb : Z.abs (a * a) < 2 ^ 24) by lia.
  set (p := Z.to_pos (Z.abs a)). set (q := Z.to_pos (Z.abs (a * a))).
  assert (Hp : Z.pos p = Z.abs a) by (unfold p; rewrite Z2Pos.id; lia).
  assert (Hqv : Z.pos q = Z.abs a * Z.abs a)
    by (unfold q; rewrite Z2Pos.id by lia; rewrite Z.abs_mul; reflexivity).
  unfold round32, F32.prec, F32.emax. rewrite !binary_normalize_int by lia.
  fold p q. unfold F32.mul, F32.prec, F32.emax, SFmul. rewrite xorb_nilpotent.
  replace (a * a <? 0) with false by (symmetry; apply Z.ltb_ge; nia).
  assert (Hp24 : Z.pos p < 2 ^ 24) by lia.
  assert (Hq24 : Z.pos q < 2 ^ 24) by lia.
  pose proof (int_bounded 24 128 ltac:(lia) ltac:(lia) ltac:(lia) q Hq24) as Hbd.
  pose proof (int_mantissa_value 24 128 ltac:(lia) ltac:(lia) ltac:(lia) p Hp24) as Hvp.
  pose proof (int_mantissa_value 24 128 ltac:(lia) ltac:(lia) ltac:(lia) q Hq24) as Hvq.
  pose proof (int_exponent_nonpos 24 p Hp24) as Hep.
  pose proof (int_exponent_nonpos 24 q Hq24) as Heq.
  assert (Hk : 0 <= int_exponent 24 q - (int_exponent 24 p + int_exponent 24 p)).
  { unfold int_exponent.
    destruct (digits2_pos_bounds p) as [Hlo _]. destruct (digits2_pos_bounds q) as [_ Hhi].
    assert (Hlt : 2 ^ (Z.pos (digits2_pos p) - 1 + (Z.pos (digits2_pos p) - 1))
                  < 2 ^ Z.pos (digits2_pos q)).
    { rewrite Z.pow_add_r by lia. nia. }
    apply Z.pow_lt_mono_r_iff in Hlt; lia. }
  set (ep := int_exponent 24 p) in *. set (eqq := int_exponent 24 q) in *.
  replace (ep + ep) with (eqq - (eqq - (ep + ep))) by lia.
  apply binary_round_aux_exact_Z; [exact Hbd | exact Hk |].
  assert (Hpow : 2 ^ (- eqq) * 2 ^ (eqq - (ep + ep)) = 2 ^ (- ep) * 2 ^ (- ep)).
  { rewrite !pow2_split by lia. f_equal. lia. }
  rewrite Pos2Z.inj_mul, Hvp, Hvq, Hqv, Hp.
  rewrite <- (Z.mul_assoc _ (2 ^ (- eqq))), Hpow. ring.
Qed.

Lemma sqrt_scaled_bounds (n P : Z) :
  0 <= n -> 0 < P ->
  Z.sqrt n * P <= Z.sqrt (n * (P * P)) < (Z.sqrt n + 1) * P.
Proof.
  intros Hn HP.
  pose proof (Z.sqrt_spec n Hn) as [Ht1 Ht2].
  assert (HnP : 0 <= n * (P * P)) by nia.
  pose proof (Z.sqrt_spec _ HnP) as [Hq1 Hq2].
  pose proof (Z.sqrt_nonneg n). pose proof (Z.sqrt_nonneg (n * (P * P))).
  set (t := Z.sqrt n) in *. set (q := Z.sqrt (n * (P * P))) in *.
  unfold Z.succ in *. split.
  - assert (t * P < q + 1); [| lia].
    apply Z.square_lt_simpl_nonneg; nia.
  - apply Z.square_lt_simpl_nonneg; nia.
Qed.

Lemma sqrt_round_up_stays (n P : Z) :
  0 <= n -> 0 < P -> Z.sqrt n + 1 <= P ->
  Z.sqrt (n * (P * P)) < n * (P * P) - Z.sqrt (n * (P * P)) * Z.sqrt (n * (P * P)) ->
  Z.sqrt (n * (P * P)) + 1 < (Z.sqrt n + 1) * P.
Proof.
  intros Hn HP Ht Hr.
  pose proof (sqrt_scaled_bounds n P Hn HP) as [Hlo Hhi].
  pose proof (Z.sqrt_spec n Hn) as [Ht1 Ht2].
  pose proof (Z.sqrt_nonneg n).
  set (t := Z.sqrt n) in *. set (q := Z.sqrt (n * (P * P))) in *.
  unfold Z.succ in *.
  destruct (Z.eq_dec (q + 1) ((t + 1) * P)) as [Heq | Hne]; [exfalso | lia].
  assert (Hq : q = (t + 1) * P - 1) by lia.
  assert (n * (P * P) <= ((t + 1) * (t + 1) - 1) * (P * P)) by nia.
  assert (q * q + q = (t + 1) * (t + 1) * (P * P) - (t + 1) * P) by (rewrite Hq; ring).
  nia.
Qed.

Lemma digits2_pos_exact (p : positive) (k : Z) :
  2 ^ (k - 1) <= Z.pos p < 2 ^ k -> Z.pos (digits2_pos p) = k.
Proof.
  intros [Hlo Hhi]. pose proof (digits2_pos_le p k Hhi) as Hle.
  destruct (digits2_pos_bounds p) as [_ Hp].
  destruct (Z.le_gt_cases k (Z.pos (digits2_pos p))) as [Hge | Hlt]; [lia |].
  exfalso.
  assert (2 ^ Z.pos (digits2_pos p) <= 2 ^ (k - 1)) by (apply Z.pow_le_mono_r; lia).
  lia.
Qed.

Lemma loc_of_shr_record_of_loc (m : Z) (l : location) :
  loc_of_shr_record (shr_record_of_loc m l) = l.
Proof. destruct l as [| []]; reflexivity. Qed.

Lemma shr_m_of_loc (m : Z) (l : location) : shr_m (shr_record_of_loc m l) = m.
Proof. destruct l as [| []]; reflexivity. Qed.

Lemma shiftl_neg_div (a e : Z) : e <= 0 -> Z.shiftl a e = a / 2 ^ (- e).
Proof.
  intros He. replace e with (- - e) at 1 by lia.
  rewrite Z.shiftl_opp_r. apply Z.shiftr_div_pow2. lia.
Qed.

Lemma shr_fexp_full (m : positive) (e : Z) (l : location) :
  2 ^ 23 <= Z.pos m < 2 ^ 24 -> -149 <= e ->
  shr_fexp 24 128 (Z.pos m) e l = (shr_record_of_loc (Z.pos m) l, e).
Proof.
  intros Hm He.
  assert (Hd : Z.pos (digits2_pos m) = 24) by (apply digits2_pos_exact; lia).
  unfold shr_fexp. cbn [Zdigits2]. rewrite Hd.
  replace (fexp 24 128 (24 + e) - e) with 0 by (unfold fexp, emin; lia).
  reflexivity.
Qed.

(** A 24-bit square root with its rounding direction: what [int] makes
    of the rounded float. *)
Lemma py_int_round_sqrt (q e : Z) (l : location) :
  2 ^ 23 <= q < 2 ^ 24 -> -24 <= e <= -1 -> l <> loc_Inexact Eq ->
  py_int (binary_round_aux 24 128 false q e l) = Ok ((q + round_up l) / 2 ^ (- e)).
Proof.
  intros Hq He Hl.
  destruct q as [| qp | qp]; try lia.
  unfold binary_round_aux. rewrite shr_fexp_full by lia.
  rewrite shr_m_of_loc, loc_of_shr_record_of_loc.
  assert (Hsame : forall m : positive, 2 ^ 23 <= Z.pos m < 2 ^ 24 ->
            py_int (let '(mrs'', e'') := shr_fexp 24 128 (Z.pos m) e loc_Exact in
                    match shr_m mrs'' with
                    | 0 => S754_zero false
                    | Z.pos m0 => if e'' <=? 128 - 24 then S754_finite false m0 e''
                                  else S754_infinity false
                    | Z.neg _ => S754_nan
                    end) = Ok (Z.pos m / 2 ^ (- e))).
  { intros m Hm.
    rewrite shr_fexp_full by lia. cbn [shr_record_of_loc shr_m].
    replace (e <=? 128 - 24) with true by (symmetry; apply Z.leb_le; lia).
    cbn [py_int cond_Zopp]. f_equal. apply shiftl_neg_div. lia. }
  destruct l as [| [] ]; cbn [round_nearest_even round_up]; try congruence.
  - rewrite Z.add_0_r. now apply Hsame.
  - rewrite Z.add_0_r. now apply Hsame.
  - destruct (Z.eq_dec (Z.pos qp + 1) (2 ^ 24)) as [Heq | Hne].
    + rewrite Heq. change (2 ^ 24) with (Z.pos 16777216).
      unfold shr_fexp. cbn [Zdigits2].
      change (Z.pos (digits2_pos 16777216)) with 25.
      replace (fexp 24 128 (25 + e) - e) with 1 by (unfold fexp, emin; lia).
      cbn [shr shr_record_of_loc SpecFloat.iter_pos shr_1 shr_m orb].
      replace (e + 1 <=? 128 - 24) with true by (symmetry; apply Z.leb_le; lia).
      cbn [py_int cond_Zopp]. f_equal. rewrite shiftl_neg_div by lia.
      replace (- e) with (1 + - (e + 1)) by lia. rewrite Z.pow_add_r by lia.
      change (Z.pos 16777216) with (2 ^ 1 * 8388608).
      rewrite Z.div_mul_cancel_l; [reflexivity | | lia].
      apply Z.pow_nonzero; lia.
    + replace (Z.pos qp + 1) with (Z.pos (qp + 1)) by lia.
      apply Hsame. lia.
Qed.

Lemma div_between (a b t : Z) : 0 < b -> t * b <= a < (t + 1) * b -> a / b = t.
Proof.
  intros Hb H. symmetry. apply (Z.div_unique a b t (a - t * b)); lia.
Qed.

(** Below [2^24] the single-precision square root, truncated, is the
    integer square root. *)
Lemma F32_sqrt_trunc (n : Z) :
  0 <= n < 2 ^ 24 -> py_int (F32.sqrt (round32 n)) = Ok (Z.sqrt n).
Proof.
  intros [Hn0 Hn].
  destruct (Z.eq_dec n 0) as [-> | Hnz]; [reflexivity |].
  set (p := Z.to_pos n).
  assert (Hp : Z.pos p = n) by (unfold p; rewrite Z2Pos.id; lia).
  assert (Hp24 : Z.pos p < 2 ^ 24) by lia.
  unfold round32, F32.prec, F32.emax.
  rewrite binary_normalize_int by lia.
  replace (n <? 0) with false by (symmetry; apply Z.ltb_ge; lia).
  replace (Z.abs n) with n by lia. fold p.
  pose proof (int_mantissa_digits 24 128 ltac:(lia) ltac:(lia) ltac:(lia) p Hp24) as Hdig.
  pose proof (int_mantissa_value 24 128 ltac:(lia) ltac:(lia) ltac:(lia) p Hp24) as Hval.
  pose proof (digits2_pos_le p 24 Hp24) as Hd24.
  destruct (digits2_pos_bounds p) as [Hlo Hhi].
  unfold int_exponent in *.
  set (M := int_mantissa 24 p) in *. set (d := Z.pos (digits2_pos p)) in *.
  assert (Hd1 : 1 <= d) by (unfold d; lia).
  unfold F32.sqrt, F32.prec, F32.emax, SFsqrt, SFsqrt_core_binary.
  cbn [Zdigits2]. rewrite Hdig, !Z.div2_div.
  replace (24 + (d - 24) + 1) with (d + 1) by lia.
  set (c := (d + 1) / 2).
  assert (Hc : 2 * c <= d + 1 <= 2 * c + 1) by (unfold c; Z.div_mod_to_equations; lia).
  replace (Z.min (fexp 24 128 c) ((d - 24) / 2)) with (c - 24)
    by (unfold fexp, emin; Z.div_mod_to_equations; lia).
  set (K := 24 - c).
  assert (HK : 12 <= K <= 23) by (unfold K; lia).
  replace (c - 24) with (- K) by (unfold K; lia).
  destruct (d - 24 - 2 * - K) as [| s | s] eqn:Hs; try lia.
  rewrite Z.shiftl_mul_pow2 by lia. rewrite Hval, Hp, <- Z.mul_assoc, pow2_split by lia.
  replace (- (d - 24) + Z.pos s) with (K + K) by lia.
  rewrite Z.pow_add_r by lia.
  set (P := 2 ^ K).
  assert (HP : 0 < P) by (apply Z.pow_pos_nonneg; lia).
  pose proof (Z.sqrtrem_sqrt (n * (P * P))) as Hfst.
  pose proof (Z.sqrtrem_spec (n * (P * P)) ltac:(nia)) as Hspec.
  destruct (Z.sqrtrem (n * (P * P))) as [q r]. cbn [fst] in Hfst. subst q.
  destruct Hspec as [Hsum Hr].
  pose proof (sqrt_scaled_bounds n P Hn0 HP) as [Hqlo Hqhi].
  set (q := Z.sqrt (n * (P * P))) in *. set (t := Z.sqrt n) in *.
  assert (Ht : t + 1 <= P).
  { assert (t < 2 ^ c).
    { apply Z.sqrt_lt_square; try lia.
      rewrite <- Z.pow_add_r by lia.
      apply Z.lt_le_trans with (2 ^ d); [lia | apply Z.pow_le_mono_r; lia]. }
    assert (2 ^ c <= P) by (apply Z.pow_le_mono_r; lia). lia. }
  assert (Hq : 2 ^ 23 <= q < 2 ^ 24).
  { split.
    - apply Z.sqrt_le_square; try nia.
      change (2 ^ 23 * 2 ^ 23) with (2 ^ 46).
      apply Z.le_trans with (2 ^ (d - 1) * (P * P)); [| nia].
      unfold P. rewrite <- !Z.pow_add_r by lia. apply Z.pow_le_mono_r; lia.
    - apply Z.sqrt_lt_square; try nia.
      change (2 ^ 24 * 2 ^ 24) with (2 ^ 48).
      apply Z.lt_le_trans with (2 ^ d * (P * P)); [nia |].
      unfold P. rewrite <- !Z.pow_add_r by lia. apply Z.pow_le_mono_r; lia. }
  rewrite py_int_round_sqrt; try lia.
  - f_equal. replace (- - K) with K by lia. fold P. apply div_between; [exact HP |].
    destruct (r =? 0) eqn:Hr0; cbn [round_up]; [lia |].
    destruct (r <=? q) eqn:Hrq; cbn [round_up]; [lia |].
    apply Z.leb_gt in Hrq.
    pose proof (sqrt_round_up_stays n P Hn0 HP Ht) as Hup. fold q t in Hup.
    assert (q < n * (P * P) - q * q) by lia. specialize (Hup ltac:(assumption)). lia.
  - destruct (r =? 0); [discriminate |]. destruct (r <=? q); discriminate.
Qed.

(** * Facts about the session *)

Section Session.
Context `{cv : OpenCV}.

Lemma frame_refl (l : loc) (h : heap) : frame l h h.
Proof. split; [reflexivity | tauto]. Qed.

Lemma frame_trans (l : loc) (h1 h2 h3 : heap) :
  frame l h1 h2 -> frame l h2 h3 -> frame l h1 h3.
Proof.
  intros [D1 F1] [D2 F2]. split; [congruence |].
  intros l' Hl. rewrite F2, F1 by assumption. reflexivity.
Qed.

Lemma touches_ret {A : Type} (l : loc) (a : A) : touches l (ret a).
Proof. intros s h. exists h, (Ok a). split; [reflexivity | apply frame_refl]. Qed.

Lemma touches_lift {A : Type} (l : loc) (r : result A) : touches l (lift r).
Proof. intros s h. exists h, r. split; [reflexivity | apply frame_refl]. Qed.

Lemma touches_gets {A : Type} (l : loc) (f : InteractiveHomography -> A) :
  touches l (gets f).
Proof. intros s h. exists h, (Ok (f s)). split; [reflexivity | apply frame_refl]. Qed.

Lemma touches_bind {A B : Type} (l : loc) (m : M A) (k : A -> M B) :
  touches l m -> (forall a, touches l (k a)) -> touches l (bind m k).
Proof.
  intros Hm Hk s h. destruct (Hm s h) as (h1 & r1 & E1 & F1).
  unfold bind. rewrite E1. destruct r1 as [a | e].
  - destruct (Hk a s h1) as (h2 & r2 & E2 & F2).
    exists h2, r2. split; [exact E2 | eapply frame_trans; eassumption].
  - exists h1, (Raise e). split; [reflexivity | exact F1].
Qed.

Lemma touches_in_place (l : loc) (f : buffer -> result buffer) : touches l (in_place l f).
Proof.
  intros s h. unfold in_place. destruct (h !! l) as [b |] eqn:Hl.
  - destruct (f b) as [b' | e].
    + exists (<[l := b']> h), (Ok tt). split; [reflexivity |]. split.
      * apply dom_insert_lookup_L. now exists b.
      * intros l' Hne. now rewrite lookup_insert_ne.
    + exists h, (Raise e). split; [reflexivity | apply frame_refl].
  - exists h, (Raise CvError). split; [reflexivity | apply frame_refl].
Qed.

Ltac touches_tac :=
  repeat first
    [ apply touches_ret | apply touches_lift | apply touches_gets
    | apply touches_in_place
    | apply touches_bind; [| intros ?]
    | match goal with |- touches _ (if ?b then _ else _) => destruct b end ].

Lemma draw_feedback_frame (x y : Z) (s : InteractiveHomography) (h : heap) :
  exists h' r, draw_feedback x y s h = (s, h', r) /\ frame (display_image s) h h'.
Proof.
  unfold draw_feedback, mbind, M_bind.
  match goal with
  | |- context [bind (gets display_image) ?K] =>
      assert (HK : forall l, touches l (K l)) by (intros l; cbv beta; touches_tac)
  end.
  destruct (HK (display_image s) s h) as (h' & r & E & F).
  exists h', r. split; [exact E | exact F].
Qed.

(** A click that is not registered changes nothing and raises nothing. *)
Lemma mouse_callback_ignored (event x y flags : Z) (s : InteractiveHomography) (h : heap) :
  (event =? EVENT_LBUTTONDOWN) && (length (corners s) <? 4)%nat = false ->
  mouse_callback event x y flags s h = (s, h, Ok tt).
Proof.
  intros Hc. unfold mouse_callback, mbind, M_bind, bind, gets. now rewrite Hc.
Qed.

(** A registered click: the preview point and the scaled point are
    appended, and only the preview buffer may change. *)
Lemma mouse_callback_registered (x y flags : Z) (s : InteractiveHomography) (h : heap) :
  (length (corners s) < 4)%nat -> scale_factor s = F64.two ->
  Z.abs x < 2 ^ 53 -> Z.abs y < 2 ^ 53 ->
  exists h' r,
    mouse_callback EVENT_LBUTTONDOWN x y flags s h
    = (set_original_corners (original_corners s ++ [(2 * x, 2 * y)])
         (set_corners (corners s ++ [(x, y)]) s), h', r)
    /\ frame (display_image s) h h'.
Proof.
  intros Hlen Hk Hx Hy.
  unfold mouse_callback, mbind, M_bind.
  unfold bind at 1, gets at 1.
  replace ((EVENT_LBUTTONDOWN =? EVENT_LBUTTONDOWN) && (length (corners s) <? 4)%nat)
    with true by (symmetry; apply andb_true_iff; split;
                  [apply Z.eqb_refl | apply Nat.ltb_lt; exact Hlen]).
  unfold bind at 1, modify at 1. unfold bind at 1, gets at 1.
  cbn [scale_factor set_corners]. rewrite Hk.
  unfold bind at 1, lift at 1. rewrite (py_int_mul_two x Hx).
  unfold bind at 1, lift at 1. rewrite (py_int_mul_two y Hy).
  unfold bind at 1, modify at 1.
  match goal with
  | |- context [draw_feedback x y ?s' h] =>
      destruct (draw_feedback_frame x y s' h) as (h' & r & E & F);
      exists h', r; split; [exact E | exact F]
  end.
Qed.

Lemma set_lists_id (s : InteractiveHomography) :
  set_original_corners (original_corners s) (set_corners (corners s) s) = s.
Proof. now destruct s. Qed.

(** Whatever the event: only the two point lists of [self] and the
    preview buffer can change, and the lists grow by at most one point,
    and only while fewer than four preview points are registered. *)
Lemma mouse_callback_shape (event x y flags : Z) (s : InteractiveHomography) (h : heap) :
  exists cs ocs h' r,
    mouse_callback event x y flags s h = (set_original_corners ocs (set_corners cs s), h', r)
    /\ frame (display_image s) h h'
    /\ ((cs = corners s /\ ocs = original_corners s)
        \/ ((length (corners s) < 4)%nat /\ cs = corners s ++ [(x, y)]
            /\ (ocs = original_corners s \/ exists p, ocs = original_corners s ++ [p]))).
Proof.
  destruct ((event =? EVENT_LBUTTONDOWN) && (length (corners s) <? 4)%nat) eqn:Hc.
  - assert (Hlen : (length (corners s) < 4)%nat).
    { apply andb_true_iff in Hc as [_ Hlen]. now apply Nat.ltb_lt in Hlen. }
    unfold mouse_callback, mbind, M_bind.
    unfold bind at 1, gets at 1. rewrite Hc.
    unfold bind at 1, modify at 1. unfold bind at 1, gets at 1.
    unfold bind at 1, lift at 1.
    set (s1 := set_corners (corners s ++ [(x, y)]) s).
    assert (E1 : s1 = set_original_corners (original_corners s) (set_corners (corners s ++ [(x, y)]) s))
      by now destruct s.
    destruct (result_bind (py_mul_int_float x (scale_factor s1)) py_int) as [ox | e].
    2:{ exists (corners s ++ [(x, y)]), (original_corners s), h, (Raise e).
        split; [now rewrite <- E1 | split; [apply frame_refl | right; auto]]. }
    unfold bind at 1, lift at 1.
    destruct (result_bind (py_mul_int_float y (scale_factor s1)) py_int) as [oy | e].
    2:{ exists (corners s ++ [(x, y)]), (original_corners s), h, (Raise e).
        split; [now rewrite <- E1 | split; [apply frame_refl | right; auto]]. }
    unfold bind at 1, modify at 1.
    match goal with
    | |- context [draw_feedback x y ?s' h] =>
        destruct (draw_feedback_frame x y s' h) as (h' & r & E & F)
    end.
    exists (corners s ++ [(x, y)]), (original_corners s ++ [(ox, oy)]), h', r.
    split; [exact E | split; [exact F | right; eauto]].
  - exists (corners s), (original_corners s), h, (Ok tt).
    rewrite set_lists_id. split; [now apply mouse_callback_ignored |].
    split; [apply frame_refl | left; auto].
Qed.

Lemma set_lists_twice (cs cs' ocs ocs' : list point) (s : InteractiveHomography) :
  set_original_corners ocs' (set_corners cs' (set_original_corners ocs (set_corners cs s)))
  = set_original_corners ocs' (set_corners cs' s).
Proof. reflexivity. Qed.

Lemma dispatch_cons (e : mouse_event) (r : list mouse_event)
    (s : InteractiveHomography) (h : heap) :
  dispatch (e :: r) s h
  = let '(s', h', _) := mouse_callback (ev_event e) (ev_x e) (ev_y e) (ev_flags e) s h in
    dispatch r s' h'.
Proof. reflexivity. Qed.

Lemma dispatch_shape (events : list mouse_event) (s : InteractiveHomography) (h : heap) :
  exists cs ocs h',
    dispatch events s h = (set_original_corners ocs (set_corners cs s), h', Ok tt)
    /\ frame (display_image s) h h'
    /\ (lists_bounded s -> (length ocs <= length cs <= 4)%nat).
Proof.
  revert s h. induction events as [| e r IH]; intros s h.
  - exists (corners s), (original_corners s), h. rewrite set_lists_id.
    split; [reflexivity | split; [apply frame_refl | intros Hb; exact Hb]].
  - rewrite dispatch_cons.
    destruct (mouse_callback_shape (ev_event e) (ev_x e) (ev_y e) (ev_flags e) s h)
      as (cs1 & ocs1 & h1 & r1 & E1 & F1 & Hl).
    rewrite E1.
    destruct (IH (set_original_corners ocs1 (set_corners cs1 s)) h1)
      as (cs2 & ocs2 & h2 & E2 & F2 & Hb).
    exists cs2, ocs2, h2. rewrite E2, set_lists_twice.
    split; [reflexivity | split; [eapply frame_trans; eassumption |]].
    intros [Hb1 Hb2]. apply Hb. unfold lists_bounded. cbn.
    destruct Hl as [[-> ->] | (Hlen & -> & [-> | [p ->]])];
      rewrite ?length_app; cbn; lia.
Qed.

(** With C [int] coordinates no conversion fails: the registered points
    are the first four left clicks, and the source points their doubles. *)
Lemma dispatch_registered (events : list mouse_event) (s : InteractiveHomography) (h : heap) :
  scale_factor s = F64.two -> Forall c_int_event events ->
  (length (corners s) <= 4)%nat -> original_corners s = map to_source (corners s) ->
  exists h',
    dispatch events s h
    = (set_original_corners (map to_source (take 4 (corners s ++ left_clicks events)))
         (set_corners (take 4 (corners s ++ left_clicks events)) s), h', Ok tt)
    /\ frame (display_image s) h h'.
Proof.
  intros Hk Hev. revert s h Hk.
  induction Hev as [| e r [Hx Hy] Hr IH]; intros s h Hk Hlen Hoc.
  - exists h. unfold left_clicks. cbn [List.filter map]. rewrite app_nil_r, take_ge by lia.
    rewrite <- Hoc, set_lists_id. split; [reflexivity | apply frame_refl].
  - rewrite dispatch_cons. unfold left_clicks. cbn [List.filter].
    unfold c_int, INT_MIN, INT_MAX in Hx, Hy.
    destruct (is_left_click e) eqn:He.
    + unfold is_left_click in He. apply Z.eqb_eq in He.
      destruct (Nat.lt_ge_cases (length (corners s)) 4) as [Hlt | Hge].
      * destruct (mouse_callback_registered (ev_x e) (ev_y e) (ev_flags e) s h Hlt Hk)
          as (h1 & r1 & E1 & F1); try lia.
        rewrite He, E1.
        destruct (IH (set_original_corners (original_corners s ++ [(2 * ev_x e, 2 * ev_y e)])
                        (set_corners (corners s ++ [(ev_x e, ev_y e)]) s)) h1)
          as (h2 & E2 & F2).
        { exact Hk. }
        { cbn. rewrite length_app. cbn. lia. }
        { cbn. rewrite Hoc, map_app. reflexivity. }
        exists h2. split; [| eapply frame_trans; eassumption].
        rewrite E2. cbn [map]. fold (left_clicks r).
        replace (corners s ++ (ev_x e, ev_y e) :: left_clicks r)
          with ((corners s ++ [(ev_x e, ev_y e)]) ++ left_clicks r)
          by (rewrite <- app_assoc; reflexivity).
        reflexivity.
      * rewrite mouse_callback_ignored
          by (apply andb_false_iff; right; apply Nat.ltb_ge; lia).
        destruct (IH s h Hk Hlen Hoc) as (h2 & E2 & F2).
        exists h2. rewrite E2. split; [| exact F2].
        cbn [map]. rewrite !take_app_le by lia. reflexivity.
    + rewrite mouse_callback_ignored
        by (apply andb_false_iff; left; exact He).
      apply IH; assumption.
Qed.

Lemma alloc_fresh (b : buffer) (h h' : heap) (l : loc) :
  alloc b h = (l, h') -> h !! l = None /\ h' = <[l := b]> h.
Proof.
  unfold alloc. intros E. inversion E; subst. split; [| reflexivity].
  apply not_elem_of_dom. apply is_fresh.
Qed.

Lemma init_session (cwd path : string) (h0 h1 : heap) (s0 : InteractiveHomography) :
  init cwd path h0 = (h1, Ok s0) ->
  corners s0 = [] /\ original_corners s0 = [] /\ scale_factor s0 = F64.two
  /\ display_width s0 = original_width s0 / 2
  /\ display_height s0 = original_height s0 / 2
  /\ separate s0 h1
  /\ (forall l, l ∈ dom h0 -> h1 !! l = h0 !! l)
  /\ h1 !! original_image s0 = h1 !! image s0.
Proof.
  unfold init. destruct (imread _) as [img |]; [| discriminate].
  destruct (alloc img h0) as [l1 h01] eqn:A1.
  destruct (alloc img h01) as [l2 h02] eqn:A2.
  destruct (resize img _) as [small | e]; [| discriminate].
  destruct (alloc small h02) as [l3 h03] eqn:A3.
  intros E. inversion E; subst; clear E. cbn.
  apply alloc_fresh in A1 as (F1 & ->).
  apply alloc_fresh in A2 as (F2 & ->).
  apply alloc_fresh in A3 as (F3 & ->).
  apply lookup_insert_None in F2 as [F2 N12].
  apply lookup_insert_None in F3 as [F3 N23].
  apply lookup_insert_None in F3 as [F3 N13].
  assert (L1 : <[l3:=small]> (<[l2:=img]> (<[l1:=img]> h0)) !! l1 = Some img).
  { rewrite !lookup_insert_ne by congruence. apply lookup_insert_eq. }
  assert (L2 : <[l3:=small]> (<[l2:=img]> (<[l1:=img]> h0)) !! l2 = Some img).
  { rewrite lookup_insert_ne by congruence. apply lookup_insert_eq. }
  assert (L3 : <[l3:=small]> (<[l2:=img]> (<[l1:=img]> h0)) !! l3 = Some small).
  { apply lookup_insert_eq. }
  split; [reflexivity |]. split; [reflexivity |]. split; [reflexivity |].
  split; [reflexivity |]. split; [reflexivity |].
  split; [| split].
  - unfold separate. cbn.
    split; [apply elem_of_dom; eauto |]. split; [apply elem_of_dom; eauto |].
    split; [apply elem_of_dom; eauto |]. repeat split; congruence.
  - intros l Hl. apply elem_of_dom in Hl as [b Hb].
    rewrite !lookup_insert_ne by congruence. reflexivity.
  - now rewrite L1, L2.
Qed.

Lemma reads_only_lift {A : Type} (r : result A) : reads_only (lift r).
Proof. intros s h. now exists r. Qed.

Lemma reads_only_ret {A : Type} (a : A) : reads_only (ret a).
Proof. intros s h. now exists (Ok a). Qed.

Lemma reads_only_gets {A : Type} (f : InteractiveHomography -> A) : reads_only (gets f).
Proof. intros s h. now exists (Ok (f s)). Qed.

Lemma reads_only_read (l : loc) : reads_only (read l).
Proof. intros s h. unfold read. destruct (h !! l); eauto. Qed.

Lemma allocates_bind {A B : Type} (m : M A) (k : A -> M (loc * B)) :
  reads_only m -> (forall a, allocates (k a)) -> allocates (bind m k).
Proof.
  intros Hm Hk s h. destruct (Hm s h) as [r E]. unfold bind. rewrite E.
  destruct r as [a | e]; [apply Hk | now exists h, (Raise e)].
Qed.

Lemma allocates_new_array {B : Type} (r : result buffer) (H : B) :
  allocates (bind (new_array r) (fun warped => ret (warped, H))).
Proof.
  intros s h. unfold bind, new_array, ret. destruct r as [b | e].
  - destruct (alloc b h) as [l h'] eqn:A. apply alloc_fresh in A as (F & ->).
    exists (<[l := b]> h), (Ok (l, H)). split; [reflexivity |].
    split; [now apply not_elem_of_dom | now exists b].
  - now exists h, (Raise e).
Qed.

Lemma allocates_raise {A : Type} (e : exn) : allocates (A := A) (lift (Raise e)).
Proof. intros s h. now exists h, (Raise e). Qed.

Lemma transform_allocates (output_size : option (Z * Z)) : allocates (transform output_size).
Proof.
  unfold transform, mbind, M_bind.
  apply allocates_bind; [apply reads_only_gets | intros n].
  destruct (negb (n =? 4)%nat); [apply allocates_raise |].
  apply allocates_bind; [apply reads_only_gets | intros oc].
  apply allocates_bind; [apply reads_only_lift | intros corners].
  apply allocates_bind.
  { destruct output_size; [apply reads_only_ret | apply reads_only_lift]. }
  intros [max_width max_height].
  apply allocates_bind; [apply reads_only_lift | intros dst].
  apply allocates_bind; [apply reads_only_lift | intros H].
  apply allocates_bind; [apply reads_only_gets | intros src].
  apply allocates_bind; [apply reads_only_read | intros b].
  apply allocates_new_array.
Qed.
End Session.

(** * Facts about the corner arrays *)

Lemma np_array_float32_round (l : list point) :
  Forall (fun p => Z.abs (fst p) < 2 ^ 53 /\ Z.abs (snd p) < 2 ^ 53) l ->
  np_array_float32 l = Ok (map to_float32 l).
Proof.
  induction 1 as [| [x y] r [Hx Hy] Hr IH]; [reflexivity |].
  cbn [np_array_float32 fst snd] in *.
  rewrite (F32_of_int_round x Hx), (F32_of_int_round y Hy). cbn [result_bind].
  rewrite IH. reflexivity.
Qed.

Lemma small_point_53 (p : point) :
  small_point p -> Z.abs (fst p) < 2 ^ 53 /\ Z.abs (snd p) < 2 ^ 53.
Proof. unfold small_point. lia. Qed.

Lemma np_array_float32_small (l : list point) :
  Forall small_point l -> np_array_float32 l = Ok (map to_float32 l).
Proof.
  intros H. apply np_array_float32_round.
  eapply Forall_impl; [exact H | apply small_point_53].
Qed.

Lemma np_sub_round (p q : point) :
  small_point p -> small_point q ->
  np_sub (to_float32 p) (to_float32 q)
  = (round32 (fst p - fst q), round32 (snd p - snd q)).
Proof.
  intros [Hp1 Hp2] [Hq1 Hq2]. unfold np_sub, to_float32. cbn [fst snd].
  now rewrite !F32_sub_round.
Qed.

(** The single-precision length of an edge, truncated, is the floor of
    its Euclidean length as long as the squared length stays below 2^24. *)
Lemma py_int_norm (p q : point) :
  small_point p -> small_point q -> sqdist p q < 2 ^ 24 ->
  py_int (np_linalg_norm (np_sub (to_float32 p) (to_float32 q))) = Ok (Z.sqrt (sqdist p q)).
Proof.
  intros Hp Hq Hd. rewrite np_sub_round by assumption.
  unfold sqdist in *. set (dx := fst p - fst q) in *. set (dy := snd p - snd q) in *.
  unfold np_linalg_norm. cbn [fst snd].
  assert (0 <= dx * dx) by nia. assert (0 <= dy * dy) by nia.
  rewrite !F32_square_round by lia.
  rewrite F32_add_round by lia.
  apply F32_sqrt_trunc. lia.
Qed.

Lemma sqrt_max (a b : Z) : Z.max (Z.sqrt a) (Z.sqrt b) = Z.sqrt (Z.max a b).
Proof.
  destruct (Z.le_ge_cases a b) as [H | H].
  - rewrite (Z.max_r a b) by lia. apply Z.max_r. now apply Z.sqrt_le_mono.
  - rewrite (Z.max_l a b) by lia. apply Z.max_l. now apply Z.sqrt_le_mono.
Qed.

(** The output size depends on the corner differences only, once the
    corners are held exactly. *)
Lemma np_sub_translate (t p q : point) :
  small_point p -> small_point q ->
  small_point (translate t p) -> small_point (translate t q) ->
  np_sub (to_float32 (translate t p)) (to_float32 (translate t q))
  = np_sub (to_float32 p) (to_float32 q).
Proof.
  intros Hp Hq Htp Htq. rewrite !np_sub_round by assumption.
  unfold translate. cbn [fst snd]. f_equal; f_equal; lia.
Qed.

(** * The claims *)

Lemma map_to_source_double (x : Z) : map_to_source x = 2 * x.
Proof.
  unfold map_to_source.
  rewrite (Qfloor_comp (inject_Z x * 2) (inject_Z (2 * x))).
  - apply Qfloor_Z.
  - rewrite inject_Z_mult. ring.
Qed.

Lemma c_int_53 (z : Z) : c_int z -> Z.abs z < 2 ^ 53.
Proof. unfold c_int, INT_MIN, INT_MAX. lia. Qed.

Lemma start_value : Recorder.start = (Recorder.store0, Ok Recorder.session0).
Proof. reflexivity. Qed.

Section Claims.
Context `{cv : OpenCV}.

(** C10: [transform] called while fewer than four source-space corners
    are registered raises its [ValueError] at once: the object and the
    store, with both image buffers, are returned as they were, and there
    is no warped image and no homography. *)
Theorem transform_without_corners_raises
    (output_size : option (Z * Z)) (s : InteractiveHomography) (h : heap) :
  (length (original_corners s) < 4)%nat ->
  transform output_size s h = (s, h, Raise (ValueError NeedCornersFirst)).
Proof.
  intros Hlen. unfold transform, mbind, M_bind, bind, gets.
  replace (length (original_corners s) =? 4)%nat with false
    by (symmetry; apply Nat.eqb_neq; lia).
  reflexivity.
Qed.

(** C5: the Corner Set never grows beyond four points.  After any
    sequence of events neither point list is longer than four, and a
    click that arrives when four points are registered is ignored
    without an error: the object, with both lists, and the store are
    unchanged. *)
Theorem corner_set_never_exceeds_four
    (events : list mouse_event) (event x y flags : Z)
    (s : InteractiveHomography) (h : heap) :
  lists_bounded s ->
  let '(s1, h1, _) := dispatch events s h in
  (length (corners s1) <= 4)%nat
  /\ (length (original_corners s1) <= 4)%nat
  /\ (length (corners s1) = 4%nat ->
      mouse_callback event x y flags s1 h1 = (s1, h1, Ok tt)).
Proof.
  intros Hb.
  destruct (dispatch_shape events s h) as (cs & ocs & h1 & E & _ & Hlen).
  rewrite E. specialize (Hlen Hb). cbn [corners original_corners set_corners set_original_corners].
  split; [lia |]. split; [lia |].
  intros H4. apply mouse_callback_ignored. cbn. rewrite H4.
  apply andb_false_r.
Qed.

(** C1: a left click at a non-negative preview position [(x, y)] (a C
    [int] of the window system) stores the source-space point
    [(floor(x * 2.0), floor(y * 2.0))]; the click at (50, 80) stores
    exactly (100, 160). *)
Theorem register_click_maps_to_source
    (x y flags : Z) (s : InteractiveHomography) (h : heap) :
  0 <= x -> 0 <= y -> c_int x -> c_int y ->
  (length (corners s) < 4)%nat -> scale_factor s = F64.two ->
  let '(s', _, _) := mouse_callback EVENT_LBUTTONDOWN x y flags s h in
  corners s' = corners s ++ [(x, y)]
  /\ original_corners s' = original_corners s ++ [(map_to_source x, map_to_source y)]
  /\ ((x, y) = (50, 80) -> original_corners s' = original_corners s ++ [(100, 160)]).
Proof.
  intros _ _ Hx Hy Hlen Hk.
  destruct (mouse_callback_registered x y flags s h Hlen Hk (c_int_53 x Hx) (c_int_53 y Hy))
    as (h' & r & E & _).
  rewrite E. cbn [corners original_corners set_corners set_original_corners].
  rewrite !map_to_source_double. split; [reflexivity |]. split; [reflexivity |].
  intros Hxy. inversion Hxy; subst. reflexivity.
Qed.

Lemma select_corners_after_dispatch
    (events : list mouse_event) (s s1 : InteractiveHomography) (h h1 : heap) :
  dispatch events s h = (s1, h1, Ok tt) ->
  select_corners events s h
  = (s1, h1, if negb (length (corners s1) =? 4)%nat
             then Raise (ValueError NeedFourCorners)
             else np_array_float32 (original_corners s1)).
Proof.
  intros E. unfold select_corners, mbind, M_bind. unfold bind at 1. rewrite E.
  unfold bind, gets, lift. now destruct (negb (length (corners s1) =? 4)%nat).
Qed.

Lemma c_int_to_source_53 (p : point) :
  c_int (fst p) -> c_int (snd p) ->
  Z.abs (fst (to_source p)) < 2 ^ 53 /\ Z.abs (snd (to_source p)) < 2 ^ 53.
Proof. unfold c_int, INT_MIN, INT_MAX, to_source. cbn [fst snd]. lia. Qed.

Lemma left_clicks_Forall (P : point -> Prop) (events : list mouse_event) :
  Forall (fun e => P (ev_x e, ev_y e)) events -> Forall P (left_clicks events).
Proof.
  unfold left_clicks. induction 1 as [| e r He Hr IH]; cbn [List.filter map].
  - constructor.
  - destruct (is_left_click e); [constructor; assumption | assumption].
Qed.

(** C3: when the interactive session ends with fewer than four
    registered points, for instance three, [select_corners] raises its
    [ValueError]; with four it returns an array of length four, the
    source-space points of the first four left clicks in click order. *)
Theorem select_corners_needs_four_points
    (events : list mouse_event) (s : InteractiveHomography) (h : heap) :
  corners s = [] -> original_corners s = [] -> scale_factor s = F64.two ->
  Forall c_int_event events ->
  let '(s', _, r) := select_corners events s h in
  corners s' = take 4 (left_clicks events)
  /\ original_corners s' = map to_source (corners s')
  /\ ((length (corners s') < 4)%nat -> r = Raise (ValueError NeedFourCorners))
  /\ (length (corners s') = 4%nat ->
      r = Ok (map to_float32 (original_corners s'))
      /\ length (map to_float32 (original_corners s')) = 4%nat).
Proof.
  intros Hc Ho Hk Hev.
  destruct (dispatch_registered events s h Hk Hev) as (h1 & E & _).
  { rewrite Hc. cbn. lia. }
  { now rewrite Hc, Ho. }
  rewrite (select_corners_after_dispatch _ _ _ _ _ E).
  rewrite Hc, app_nil_l.
  cbn [corners original_corners set_corners set_original_corners].
  set (cs := take 4 (left_clicks events)).
  split; [reflexivity |]. split; [reflexivity |]. split.
  - intros Hlt. replace (length cs =? 4)%nat with false by (symmetry; apply Nat.eqb_neq; lia).
    reflexivity.
  - intros H4. rewrite H4. cbn [Nat.eqb negb]. split.
    + apply np_array_float32_round. apply Forall_map.
      assert (Hcs : Forall (fun p => c_int (fst p) /\ c_int (snd p)) cs).
      { apply Forall_take. apply left_clicks_Forall.
        eapply Forall_impl; [exact Hev |]. intros e He. exact He. }
      eapply Forall_impl; [exact Hcs |]. intros p [Hx Hy]. now apply c_int_to_source_53.
    + now rewrite !length_map.
Qed.

Lemma to_source_even (p : point) : even_point (to_source p).
Proof.
  unfold even_point, to_source. cbn [fst snd].
  split; rewrite Z.even_mul; reflexivity.
Qed.

Lemma halved_bound (x w : Z) : 0 <= x < w / 2 -> 0 <= 2 * x <= w - 2.
Proof. intros Hx. Z.div_mod_to_equations. lia. Qed.

(** C9: in a session started by [__init__] the preview has the
    floor-halved dimensions of the source image and the inverse scale is
    exactly 2.0; every source-space point the callback stores has two
    even coordinates, and when the pointer events lie inside the preview
    every stored point satisfies x <= original_width - 2 and
    y <= original_height - 2. *)
Theorem mapped_coordinates_even_and_inside
    (cwd path : string) (h0 h1 : heap) (s0 : InteractiveHomography)
    (events : list mouse_event) :
  init cwd path h0 = (h1, Ok s0) -> Forall c_int_event events ->
  let '(s, _, _) := dispatch events s0 h1 in
  display_width s0 = original_width s0 / 2
  /\ display_height s0 = original_height s0 / 2
  /\ scale_factor s0 = F64.two
  /\ original_width s = original_width s0 /\ original_height s = original_height s0
  /\ Forall even_point (original_corners s)
  /\ (Forall (in_preview s0) events ->
      Forall (fun p => 0 <= fst p <= original_width s - 2
                       /\ 0 <= snd p <= original_height s - 2)
             (original_corners s)).
Proof.
  intros Hi Hev.
  destruct (init_session _ _ _ _ _ Hi) as (Hc & Ho & Hk & Hw & Hh & _).
  destruct (dispatch_registered events s0 h1 Hk Hev) as (h2 & E & _).
  { rewrite Hc. cbn. lia. }
  { now rewrite Hc, Ho. }
  rewrite E, Hc, app_nil_l.
  cbn [original_corners set_original_corners set_corners original_width original_height].
  split; [exact Hw |]. split; [exact Hh |]. split; [exact Hk |].
  split; [reflexivity |]. split; [reflexivity |]. split.
  - apply Forall_map. apply Forall_true. intros p. apply to_source_even.
  - intros Hin. apply Forall_map. apply Forall_take. apply left_clicks_Forall.
    eapply Forall_impl; [exact Hin |]. intros e [Hx Hy].
    unfold to_source. cbn [fst snd]. rewrite Hw in Hx. rewrite Hh in Hy.
    split; apply halved_bound; assumption.
Qed.

(** C8: over a whole session ([__init__], any pointer events, then
    [transform]) the object keeps its three image references; the events
    change the store at most in the contents of the preview buffer, so
    the full-resolution source image and its copy stay as loaded; and
    [transform] changes no buffer at all: when it returns, its result is
    a buffer that was not in the store before. *)
Theorem only_preview_buffer_is_mutated
    (cwd path : string) (h0 h1 : heap) (s0 : InteractiveHomography)
    (events : list mouse_event) (output_size : option (Z * Z)) :
  init cwd path h0 = (h1, Ok s0) ->
  let '(s1, h2, _) := dispatch events s0 h1 in
  let '(s2, h3, r) := transform output_size s1 h2 in
  (image s2 = image s0 /\ original_image s2 = original_image s0
   /\ display_image s2 = display_image s0)
  /\ (original_image s0 <> display_image s0 /\ image s0 <> display_image s0)
  /\ dom h2 = dom h1
  /\ (forall l, l <> display_image s0 -> h2 !! l = h1 !! l)
  /\ (h3 !! original_image s0 = h1 !! original_image s0
      /\ h3 !! image s0 = h1 !! image s0)
  /\ match r with
     | Ok (warped, _) =>
         (warped ∉ dom h2) /\ (forall l, l <> warped -> h3 !! l = h2 !! l)
         /\ warped ∈ dom h3
     | Raise _ => h3 = h2
     end.
Proof.
  intros Hi.
  destruct (init_session _ _ _ _ _ Hi) as (_ & _ & _ & _ & _ & Hsep & _).
  destruct Hsep as (Di & Do & Dd & Nid & Nod & Nio).
  destruct (dispatch_shape events s0 h1) as (cs & ocs & h2 & E & [Fd Fl] & _).
  rewrite E.
  destruct (transform_allocates output_size (set_original_corners ocs (set_corners cs s0)) h2)
    as (h3 & r & E3 & Hr).
  rewrite E3. cbn [image original_image display_image set_original_corners set_corners].
  split; [repeat split |]. split; [split; assumption |].
  split; [exact Fd |]. split; [exact Fl |].
  destruct r as [[warped Hm] | e].
  - destruct Hr as (Hfresh & b & ->).
    assert (Hne : forall l, l ∈ dom h1 -> l <> warped).
    { intros l Hl ->. apply Hfresh. now rewrite Fd. }
    split; [| split; [exact Hfresh | split]].
    + split.
      * rewrite lookup_insert_ne by (intros Heq; symmetry in Heq; revert Heq; now apply Hne).
        now apply Fl.
      * rewrite lookup_insert_ne by (intros Heq; symmetry in Heq; revert Heq; now apply Hne).
        now apply Fl.
    + intros l Hl. now apply lookup_insert_ne.
    + rewrite dom_insert. apply elem_of_union_l. now apply elem_of_singleton.
  - subst h3. split; [| reflexivity]. split; now apply Fl.
Qed.

Lemma destination_round (W H : Z) :
  1 <= W <= INT_MAX -> 1 <= H <= INT_MAX ->
  destination W H = Ok (map to_float32 (dest_points W H)).
Proof.
  unfold INT_MAX. intros HW HH. unfold destination, dest_points.
  apply np_array_float32_round.
  repeat constructor; cbn [fst snd]; lia.
Qed.

Lemma transform_explicit_size
    (W H : Z) (src : list fpoint) (s : InteractiveHomography) (h : heap) :
  1 <= W <= INT_MAX -> 1 <= H <= INT_MAX ->
  length (original_corners s) = 4%nat ->
  np_array_float32 (original_corners s) = Ok src ->
  transform (Some (W, H)) s h
  = bind (lift (findHomography src (map to_float32 (dest_points W H))))
         (fun Hm => resample Hm (W, H)) s h.
Proof.
  intros HW HH Hlen Hsrc.
  unfold transform, resample, mbind, M_bind.
  unfold bind at 1. unfold gets at 1. rewrite Hlen. cbn [Nat.eqb negb].
  unfold bind at 1. unfold gets at 1.
  unfold bind at 1. unfold lift at 1. rewrite Hsrc.
  unfold bind at 1. unfold ret at 1.
  unfold bind at 1. unfold lift at 1. rewrite (destination_round W H HW HH).
  reflexivity.
Qed.

Lemma identity_is_the_exact_solution (M : matrix3) :
  exact_homography M [(0, 0); (99, 0); (99, 99); (0, 99)]%Q
                     [(0, 0); (99, 0); (99, 99); (0, 99)]%Q ->
  is_identity M.
Proof.
  intros [H33 HF].
  inversion HF as [| p0 q0 l0 l0' (_ & A0 & B0) HF1]; subst; clear HF.
  inversion HF1 as [| p1 q1 l1 l1' (_ & A1 & B1) HF2]; subst; clear HF1.
  inversion HF2 as [| p2 q2 l2 l2' (_ & A2 & B2) HF3]; subst; clear HF2.
  inversion HF3 as [| p3 q3 l3 l3' (_ & A3 & B3) _]; subst; clear HF3.
  cbn [fst snd] in *. unfold is_identity.
  repeat split; lra.
Qed.




Lemma compute_output_size_small (c0 c1 c2 c3 : point) :
  small_point c0 -> small_point c1 -> small_point c2 -> small_point c3 ->
  result_bind (np_array_float32 [c0; c1; c2; c3]) compute_output_size
  = compute_output_size [to_float32 c0; to_float32 c1; to_float32 c2; to_float32 c3].
Proof.
  intros H0 H1 H2 H3. rewrite np_array_float32_small.
  - reflexivity.
  - repeat (constructor; [assumption |]). constructor.
Qed.

(** C2, as amended: when the four corners have coordinates that single
    precision holds exactly (absolute value below 2^24) and the squared
    lengths of the four edges stay below 2^24, the computed output size is
    W = floor(max(|c2 - c3|, |c1 - c0|)) and
    H = floor(max(|c1 - c2|, |c0 - c3|)) with Euclidean lengths; the
    trapezoid (0,0), (80,0), (153,108), (53,108), with top edge 80,
    bottom edge 100, left edge about 120.3 and right edge about 130.4,
    yields (100, 130). *)
Theorem compute_output_size_euclid (c0 c1 c2 c3 : point) :
  small_point c0 -> small_point c1 -> small_point c2 -> small_point c3 ->
  sqdist c2 c3 < 2 ^ 24 -> sqdist c1 c0 < 2 ^ 24 ->
  sqdist c1 c2 < 2 ^ 24 -> sqdist c0 c3 < 2 ^ 24 ->
  result_bind (np_array_float32 [c0; c1; c2; c3]) compute_output_size
  = Ok (euclid_output_size c0 c1 c2 c3)
  /\ ([c0; c1; c2; c3] = [(0, 0); (80, 0); (153, 108); (53, 108)] ->
      result_bind (np_array_float32 [c0; c1; c2; c3]) compute_output_size
      = Ok (100, 130)).
Proof.
  intros H0 H1 H2 H3 D23 D10 D12 D03.
  assert (E : result_bind (np_array_float32 [c0; c1; c2; c3]) compute_output_size
              = Ok (euclid_output_size c0 c1 c2 c3)).
  { rewrite compute_output_size_small by assumption.
    unfold compute_output_size.
    rewrite !py_int_norm by assumption. cbn [result_bind].
    unfold euclid_output_size. now rewrite !sqrt_max. }
  split; [exact E |].
  intros Hc. rewrite E. inversion Hc; subst. reflexivity.
Qed.

(** C7, as amended: when the coordinates of the four corners are held
    exactly in single precision before and after the translation
    (absolute values below 2^24), translating all four corners by the
    same vector leaves the computed output size as it was. *)
Theorem compute_output_size_translation (t c0 c1 c2 c3 : point) :
  Forall small_point [c0; c1; c2; c3] ->
  Forall small_point (map (translate t) [c0; c1; c2; c3]) ->
  result_bind (np_array_float32 (map (translate t) [c0; c1; c2; c3])) compute_output_size
  = result_bind (np_array_float32 [c0; c1; c2; c3]) compute_output_size.
Proof.
  intros Hs Ht.
  rewrite (np_array_float32_small _ Hs), (np_array_float32_small _ Ht).
  cbn [map] in *. cbn [result_bind].
  inversion Hs as [| ? ? H0 Hs1]; subst. inversion Hs1 as [| ? ? H1 Hs2]; subst.
  inversion Hs2 as [| ? ? H2 Hs3]; subst. inversion Hs3 as [| ? ? H3 _]; subst.
  inversion Ht as [| ? ? T0 Ht1]; subst. inversion Ht1 as [| ? ? T1 Ht2]; subst.
  inversion Ht2 as [| ? ? T2 Ht3]; subst. inversion Ht3 as [| ? ? T3 _]; subst.
  unfold compute_output_size.
  rewrite !np_sub_translate by assumption. reflexivity.
Qed.

End Claims.

Lemma transform_without_corners_raises_witness :
  (length (original_corners Recorder.session0) < 4)%nat
  /\ transform None Recorder.session0 Recorder.store0
     = (Recorder.session0, Recorder.store0, Raise (ValueError NeedCornersFirst)).
Proof.
  split; [cbn; lia |].
  apply transform_without_corners_raises. cbn. lia.
Defined.

Lemma corner_set_never_exceeds_four_witness :
  lists_bounded Recorder.session0
  /\ let '(s1, h1, _) :=
       dispatch [Recorder.click 10 10; Recorder.click 300 10; Recorder.click 300 200;
                 Recorder.click 10 200; Recorder.click 150 100]
                Recorder.session0 Recorder.store0 in
     (length (corners s1) <= 4)%nat
     /\ (length (original_corners s1) <= 4)%nat
     /\ (length (corners s1) = 4%nat ->
         mouse_callback EVENT_LBUTTONDOWN 150 100 0 s1 h1 = (s1, h1, Ok tt)).
Proof.
  split; [unfold lists_bounded; cbn; lia |].
  apply (corner_set_never_exceeds_four
           [Recorder.click 10 10; Recorder.click 300 10; Recorder.click 300 200;
            Recorder.click 10 200; Recorder.click 150 100]
           EVENT_LBUTTONDOWN 150 100 0 Recorder.session0 Recorder.store0).
  unfold lists_bounded; cbn; lia.
Defined.

Lemma register_click_maps_to_source_witness :
  0 <= 50 /\ 0 <= 80 /\ c_int 50 /\ c_int 80
  /\ (length (corners Recorder.session0) < 4)%nat
  /\ scale_factor Recorder.session0 = F64.two
  /\ let '(s', _, _) :=
       mouse_callback EVENT_LBUTTONDOWN 50 80 0 Recorder.session0 Recorder.store0 in
     corners s' = corners Recorder.session0 ++ [(50, 80)]
     /\ original_corners s'
        = original_corners Recorder.session0 ++ [(map_to_source 50, map_to_source 80)]
     /\ ((50, 80) = (50, 80) ->
         original_corners s' = original_corners Recorder.session0 ++ [(100, 160)]).
Proof.
  assert (Hc50 : c_int 50) by (unfold c_int, INT_MIN, INT_MAX; lia).
  assert (Hc80 : c_int 80) by (unfold c_int, INT_MIN, INT_MAX; lia).
  assert (Hlen : (length (corners Recorder.session0) < 4)%nat) by (cbn; lia).
  split; [lia |]. split; [lia |]. split; [exact Hc50 |]. split; [exact Hc80 |].
  split; [exact Hlen |]. split; [reflexivity |].
  apply (register_click_maps_to_source 50 80 0 Recorder.session0 Recorder.store0);
    first [lia | assumption | reflexivity].
Defined.

Lemma c_int_small (z : Z) : -1000 <= z <= 1000 -> c_int z.
Proof. unfold c_int, INT_MIN, INT_MAX. lia. Qed.

Lemma select_corners_needs_four_points_witness :
  corners Recorder.session0 = [] /\ original_corners Recorder.session0 = []
  /\ scale_factor Recorder.session0 = F64.two
  /\ Forall c_int_event
       [Recorder.click 10 10; Recorder.click 300 10; Recorder.click 300 200;
        Recorder.click 10 200]
  /\ let '(s', _, r) :=
       select_corners
         [Recorder.click 10 10; Recorder.click 300 10; Recorder.click 300 200;
          Recorder.click 10 200]
         Recorder.session0 Recorder.store0 in
     corners s'
     = take 4 (left_clicks [Recorder.click 10 10; Recorder.click 300 10;
                            Recorder.click 300 200; Recorder.click 10 200])
     /\ original_corners s' = map to_source (corners s')
     /\ ((length (corners s') < 4)%nat -> r = Raise (ValueError NeedFourCorners))
     /\ (length (corners s') = 4%nat ->
         r = Ok (map to_float32 (original_corners s'))
         /\ length (map to_float32 (original_corners s')) = 4%nat).
Proof.
  assert (Hev : Forall c_int_event
                  [Recorder.click 10 10; Recorder.click 300 10; Recorder.click 300 200;
                   Recorder.click 10 200]).
  { repeat constructor; apply c_int_small; cbn; lia. }
  split; [reflexivity |]. split; [reflexivity |]. split; [reflexivity |].
  split; [exact Hev |].
  apply (select_corners_needs_four_points
           [Recorder.click 10 10; Recorder.click 300 10; Recorder.click 300 200;
            Recorder.click 10 200] Recorder.session0 Recorder.store0);
    first [reflexivity | exact Hev].
Defined.

Lemma mapped_coordinates_even_and_inside_witness :
  init "/work" "example.jpg" ∅ = (Recorder.store0, Ok Recorder.session0)
  /\ Forall c_int_event [Recorder.click 50 80; Recorder.click 319 239]
  /\ let '(s, _, _) :=
       dispatch [Recorder.click 50 80; Recorder.click 319 239]
                Recorder.session0 Recorder.store0 in
     display_width Recorder.session0 = original_width Recorder.session0 / 2
     /\ display_height Recorder.session0 = original_height Recorder.session0 / 2
     /\ scale_factor Recorder.session0 = F64.two
     /\ original_width s = original_width Recorder.session0
     /\ original_height s = original_height Recorder.session0
     /\ Forall even_point (original_corners s)
     /\ (Forall (in_preview Recorder.session0)
                [Recorder.click 50 80; Recorder.click 319 239] ->
         Forall (fun p => 0 <= fst p <= original_width s - 2
                          /\ 0 <= snd p <= original_height s - 2)
                (original_corners s)).
Proof.
  assert (Hev : Forall c_int_event [Recorder.click 50 80; Recorder.click 319 239]).
  { repeat constructor; apply c_int_small; cbn; lia. }
  split; [exact start_value |]. split; [exact Hev |].
  apply (mapped_coordinates_even_and_inside "/work" "example.jpg" ∅ Recorder.store0
           Recorder.session0 [Recorder.click 50 80; Recorder.click 319 239]);
    [exact start_value | exact Hev].
Defined.

Lemma only_preview_buffer_is_mutated_witness :
  init "/work" "example.jpg" ∅ = (Recorder.store0, Ok Recorder.session0)
  /\ let '(s1, h2, _) :=
       dispatch [Recorder.click 10 10; Recorder.click 300 10; Recorder.click 300 200;
                 Recorder.click 10 200]
                Recorder.session0 Recorder.store0 in
     let '(s2, h3, r) := transform None s1 h2 in
     (image s2 = image Recorder.session0
      /\ original_image s2 = original_image Recorder.session0
      /\ display_image s2 = display_image Recorder.session0)
     /\ (original_image Recorder.session0 <> display_image Recorder.session0
         /\ image Recorder.session0 <> display_image Recorder.session0)
     /\ dom h2 = dom Recorder.store0
     /\ (forall l, l <> display_image Recorder.session0 -> h2 !! l = Recorder.store0 !! l)
     /\ (h3 !! original_image Recorder.session0
         = Recorder.store0 !! original_image Recorder.session0
         /\ h3 !! image Recorder.session0 = Recorder.store0 !! image Recorder.session0)
     /\ match r with
        | Ok (warped, _) =>
            (warped ∉ dom h2) /\ (forall l, l <> warped -> h3 !! l = h2 !! l)
            /\ warped ∈ dom h3
        | Raise _ => h3 = h2
        end.
Proof.
  split; [exact start_value |].
  apply (only_preview_buffer_is_mutated "/work" "example.jpg" ∅ Recorder.store0
           Recorder.session0
           [Recorder.click 10 10; Recorder.click 300 10; Recorder.click 300 200;
            Recorder.click 10 200] None).
  exact start_value.
Defined.



(** C2 as stated fails: for the corners (0,0), (1892,3652), (1892,3752),
    (0,100) the top edge has length sqrt(4113^2 - 1), whose floor is
    4112, and the single-precision square root rounds it up to 4113.0. *)
Lemma compute_output_size_rounds_up :
  result_bind (np_array_float32 [(0, 0); (1892, 3652); (1892, 3752); (0, 100)])
              compute_output_size
  = Ok (4113, 100)
  /\ euclid_output_size (0, 0) (1892, 3652) (1892, 3752) (0, 100) = (4112, 100)
  /\ result_bind (np_array_float32 [(0, 0); (1892, 3652); (1892, 3752); (0, 100)])
                 compute_output_size
     <> Ok (euclid_output_size (0, 0) (1892, 3652) (1892, 3752) (0, 100)).
Proof.
  split; [vm_compute; reflexivity |]. split; [vm_compute; reflexivity |].
  vm_compute. discriminate.
Qed.

Lemma small_point_literal (p : point) :
  -1000 <= fst p <= 1000 -> -1000 <= snd p <= 1000 -> small_point p.
Proof. unfold small_point. lia. Qed.

Lemma compute_output_size_euclid_witness :
  small_point (0, 0) /\ small_point (80, 0) /\ small_point (153, 108)
  /\ small_point (53, 108)
  /\ sqdist (153, 108) (53, 108) < 2 ^ 24 /\ sqdist (80, 0) (0, 0) < 2 ^ 24
  /\ sqdist (80, 0) (153, 108) < 2 ^ 24 /\ sqdist (0, 0) (53, 108) < 2 ^ 24
  /\ result_bind (np_array_float32 [(0, 0); (80, 0); (153, 108); (53, 108)])
                 compute_output_size
     = Ok (euclid_output_size (0, 0) (80, 0) (153, 108) (53, 108))
  /\ ([(0, 0); (80, 0); (153, 108); (53, 108)]
      = [(0, 0); (80, 0); (153, 108); (53, 108)] ->
      result_bind (np_array_float32 [(0, 0); (80, 0); (153, 108); (53, 108)])
                  compute_output_size
      = Ok (100, 130)).
Proof.
  assert (S0 : small_point (0, 0)) by (apply small_point_literal; cbn; lia).
  assert (S1 : small_point (80, 0)) by (apply small_point_literal; cbn; lia).
  assert (S2 : small_point (153, 108)) by (apply small_point_literal; cbn; lia).
  assert (S3 : small_point (53, 108)) by (apply small_point_literal; cbn; lia).
  assert (D23 : sqdist (153, 108) (53, 108) < 2 ^ 24) by (vm_compute; reflexivity).
  assert (D10 : sqdist (80, 0) (0, 0) < 2 ^ 24) by (vm_compute; reflexivity).
  assert (D12 : sqdist (80, 0) (153, 108) < 2 ^ 24) by (vm_compute; reflexivity).
  assert (D03 : sqdist (0, 0) (53, 108) < 2 ^ 24) by (vm_compute; reflexivity).
  split; [exact S0 |]. split; [exact S1 |]. split; [exact S2 |]. split; [exact S3 |].
  split; [exact D23 |]. split; [exact D10 |]. split; [exact D12 |]. split; [exact D03 |].
  exact (compute_output_size_euclid (0, 0) (80, 0) (153, 108) (53, 108)
           S0 S1 S2 S3 D23 D10 D12 D03).
Defined.

(** C7 as stated fails: the square (0,0), (2,0), (2,2), (0,2) has output
    size (2, 2); moved by (2^25, 0) its corners 2^25 + 2 are not
    single-precision numbers and become 2^25, so the size is (0, 2). *)
Lemma compute_output_size_not_translation_invariant :
  result_bind (np_array_float32 [(0, 0); (2, 0); (2, 2); (0, 2)]) compute_output_size
  = Ok (2, 2)
  /\ result_bind
       (np_array_float32 (map (translate (2 ^ 25, 0)) [(0, 0); (2, 0); (2, 2); (0, 2)]))
       compute_output_size
     = Ok (0, 2)
  /\ result_bind
       (np_array_float32 (map (translate (2 ^ 25, 0)) [(0, 0); (2, 0); (2, 2); (0, 2)]))
       compute_output_size
     <> result_bind (np_array_float32 [(0, 0); (2, 0); (2, 2); (0, 2)])
                    compute_output_size.
Proof.
  split; [vm_compute; reflexivity |]. split; [vm_compute; reflexivity |].
  vm_compute. discriminate.
Qed.

Lemma compute_output_size_translation_witness :
  Forall small_point [(0, 0); (2, 0); (2, 2); (0, 2)]
  /\ Forall small_point (map (translate (100, -7)) [(0, 0); (2, 0); (2, 2); (0, 2)])
  /\ result_bind
       (np_array_float32 (map (translate (100, -7)) [(0, 0); (2, 0); (2, 2); (0, 2)]))
       compute_output_size
     = result_bind (np_array_float32 [(0, 0); (2, 0); (2, 2); (0, 2)])
                   compute_output_size.
Proof.
  assert (Hs : Forall small_point [(0, 0); (2, 0); (2, 2); (0, 2)]).
  { repeat (constructor; [apply small_point_literal; cbn; lia |]). constructor. }
  assert (Ht : Forall small_point
                 (map (translate (100, -7)) [(0, 0); (2, 0); (2, 2); (0, 2)])).
  { cbn [map]. unfold translate. cbn [fst snd].
    repeat (constructor; [apply small_point_literal; cbn [fst snd]; lia |]).
    constructor. }
  split; [exact Hs |]. split; [exact Ht |].
  exact (compute_output_size_translation (100, -7) (0, 0) (2, 0) (2, 2) (0, 2) Hs Ht).
Defined.

(** * Further properties of the program *)

Section Further.
Context `{io : ImageIO}.

(** ** The constructor *)

Lemma replace_backslash_get (s : string) (n : nat) :
  String.get n (replace_backslash s)
  = match String.get n s with
    | Some c => Some (if Ascii.eqb c (Ascii.ascii_of_nat 92)
                      then Ascii.ascii_of_nat 47 else c)
    | None => None
    end.
Proof.
  revert n. induction s as [| c r IH]; intros n; [reflexivity |].
  destruct n as [| n]; [reflexivity |]. cbn [replace_backslash String.get]. apply IH.
Qed.

(** X1: the directory part of the image path is the working directory
    with every backslash turned into a slash and nothing else changed:
    the length stays, no backslash is left, and a directory without
    backslashes is taken as it is. *)
Theorem replace_backslash_only_slashes (s : string) :
  String.length (replace_backslash s) = String.length s
  /\ (forall n, String.get n (replace_backslash s) <> Some (Ascii.ascii_of_nat 92))
  /\ (forall n c, String.get n s = Some c -> c <> Ascii.ascii_of_nat 92 ->
                  String.get n (replace_backslash s) = Some c)
  /\ (forall n, String.get n s = Some (Ascii.ascii_of_nat 92) ->
                String.get n (replace_backslash s) = Some (Ascii.ascii_of_nat 47))
  /\ replace_backslash (replace_backslash s) = replace_backslash s.
Proof.
  split; [| split; [| split; [| split]]].
  - induction s as [| c r IH]; [reflexivity |]. cbn [replace_backslash String.length].
    now rewrite IH.
  - intros n. rewrite replace_backslash_get. destruct (String.get n s) as [c |]; [| discriminate].
    destruct (Ascii.eqb c (Ascii.ascii_of_nat 92)) eqn:E; [discriminate |].
    intros Hc. inversion Hc; subst. now rewrite Ascii.eqb_refl in E.
  - intros n c Hc Hne. rewrite replace_backslash_get, Hc.
    destruct (Ascii.eqb c (Ascii.ascii_of_nat 92)) eqn:E; [| reflexivity].
    apply Ascii.eqb_eq in E. contradiction.
  - intros n Hc. rewrite replace_backslash_get, Hc. reflexivity.
  - induction s as [| c r IH]; [reflexivity |]. cbn [replace_backslash]. rewrite IH. f_equal.
    destruct (Ascii.eqb c (Ascii.ascii_of_nat 92)) eqn:E; [reflexivity | now rewrite E].
Qed.

(** An image that cannot be read: the constructor raises at once. *)
Lemma init_unreadable_image (cwd path : string) (h : heap) :
  imread (replace_backslash cwd +:+ "/interactive/" +:+ path)%string = None ->
  init cwd path h = (h, Raise (ValueError (CannotReadImage path))).
Proof. intros Hr. unfold init. now rewrite Hr. Qed.

(** X3: a constructor that returns has read the image at
    [<cwd>/interactive/<path>] and holds three buffers that were not in
    the store before and are distinct: the image as read, a copy with
    the same contents, and the preview, the image resized to the
    floor-halved width and height.  The dimensions are taken from the
    image, both point lists are empty, and no buffer that was there
    before has changed. *)
Theorem init_allocates_three_buffers
    (cwd path : string) (h0 h1 : heap) (s0 : InteractiveHomography) :
  init cwd path h0 = (h1, Ok s0) ->
  exists img small,
    image_path s0 = (replace_backslash cwd +:+ "/interactive/" +:+ path)%string
    /\ imread (image_path s0) = Some img
    /\ original_width s0 = cols img /\ original_height s0 = rows img
    /\ display_width s0 = cols img / 2 /\ display_height s0 = rows img / 2
    /\ resize img (display_width s0, display_height s0) = Ok small
    /\ h1 !! image s0 = Some img /\ h1 !! original_image s0 = Some img
    /\ h1 !! display_image s0 = Some small
    /\ (image s0 <> original_image s0 /\ image s0 <> display_image s0
        /\ original_image s0 <> display_image s0)
    /\ (h0 !! image s0 = None /\ h0 !! original_image s0 = None
        /\ h0 !! display_image s0 = None)
    /\ dom h1 = {[display_image s0]} ∪ ({[original_image s0]} ∪ ({[image s0]} ∪ dom h0))
    /\ (forall l, l ∈ dom h0 -> h1 !! l = h0 !! l)
    /\ corners s0 = [] /\ original_corners s0 = [] /\ scale_factor s0 = F64.two.
Proof.
  unfold init. destruct (imread _) as [img |] eqn:Hr; [| discriminate].
  destruct (alloc img h0) as [l1 h01] eqn:A1.
  destruct (alloc img h01) as [l2 h02] eqn:A2.
  destruct (resize img _) as [small | e] eqn:Hs; [| discriminate].
  destruct (alloc small h02) as [l3 h03] eqn:A3.
  intros E. inversion E; subst; clear E. cbn.
  apply alloc_fresh in A1 as (F1 & ->).
  apply alloc_fresh in A2 as (F2 & ->).
  apply alloc_fresh in A3 as (F3 & ->).
  apply lookup_insert_None in F2 as [F2 N12].
  apply lookup_insert_None in F3 as [F3 N23].
  apply lookup_insert_None in F3 as [F3 N13].
  exists img, small.
  split; [reflexivity |]. split; [exact Hr |].
  split; [reflexivity |]. split; [reflexivity |].
  split; [reflexivity |]. split; [reflexivity |]. split; [exact Hs |].
  split; [rewrite !lookup_insert_ne by congruence; apply lookup_insert_eq |].
  split; [rewrite lookup_insert_ne by congruence; apply lookup_insert_eq |].
  split; [apply lookup_insert_eq |].
  split; [repeat split; congruence |].
  split; [repeat split; assumption |].
  split; [now rewrite !dom_insert_L |].
  split; [| repeat split].
  intros l Hl. apply elem_of_dom in Hl as [b Hb].
  rewrite !lookup_insert_ne by congruence. reflexivity.
Qed.

(** ** The mouse callback *)

(** X4: an event that is not a left-button press (a move, a release, a
    right click) changes neither the object nor any buffer and raises
    nothing, and so does any run of such events during the wait. *)
Theorem other_events_change_nothing
    (events : list mouse_event) (s : InteractiveHomography) (h : heap) :
  Forall (fun e => ev_event e <> EVENT_LBUTTONDOWN) events ->
  Forall (fun e => mouse_callback (ev_event e) (ev_x e) (ev_y e) (ev_flags e) s h
                   = (s, h, Ok tt)) events
  /\ dispatch events s h = (s, h, Ok tt).
Proof.
  intros Hev.
  assert (Hone : forall e, ev_event e <> EVENT_LBUTTONDOWN ->
                   mouse_callback (ev_event e) (ev_x e) (ev_y e) (ev_flags e) s h
                   = (s, h, Ok tt)).
  { intros e He. apply mouse_callback_ignored. apply andb_false_iff. left.
    now apply Z.eqb_neq. }
  split.
  - eapply Forall_impl; [exact Hev | exact Hone].
  - induction Hev as [| e r He Hr IH]; [reflexivity |].
    rewrite dispatch_cons, (Hone e He). exact IH.
Qed.

End Further.

Lemma init_allocates_three_buffers_witness :
  init "/work" "example.jpg" Recorder.empty_store = (Recorder.store0, Ok Recorder.session0)
  /\ exists img small,
       image_path Recorder.session0
       = (replace_backslash "/work" +:+ "/interactive/" +:+ "example.jpg")%string
       /\ imread (OpenCV := Recorder.recorder) (image_path Recorder.session0) = Some img
       /\ original_width Recorder.session0 = cols img
       /\ original_height Recorder.session0 = rows img
       /\ display_width Recorder.session0 = cols img / 2
       /\ display_height Recorder.session0 = rows img / 2
       /\ resize img (display_width Recorder.session0, display_height Recorder.session0)
          = Ok small
       /\ Recorder.store0 !! image Recorder.session0 = Some img
       /\ Recorder.store0 !! original_image Recorder.session0 = Some img
       /\ Recorder.store0 !! display_image Recorder.session0 = Some small
       /\ (image Recorder.session0 <> original_image Recorder.session0
           /\ image Recorder.session0 <> display_image Recorder.session0
           /\ original_image Recorder.session0 <> display_image Recorder.session0)
       /\ (Recorder.empty_store !! image Recorder.session0 = None
           /\ Recorder.empty_store !! original_image Recorder.session0 = None
           /\ Recorder.empty_store !! display_image Recorder.session0 = None)
       /\ dom Recorder.store0
          = {[display_image Recorder.session0]}
            ∪ ({[original_image Recorder.session0]}
               ∪ ({[image Recorder.session0]} ∪ dom Recorder.empty_store))
       /\ (forall l, l ∈ dom Recorder.empty_store ->
                     Recorder.store0 !! l = Recorder.empty_store !! l)
       /\ corners Recorder.session0 = [] /\ original_corners Recorder.session0 = []
       /\ scale_factor Recorder.session0 = F64.two.
Proof.
  split; [exact start_value |].
  apply (init_allocates_three_buffers "/work" "example.jpg" Recorder.empty_store
           Recorder.store0 Recorder.session0).
  exact start_value.
Defined.

Lemma other_events_change_nothing_witness :
  Forall (fun e => ev_event e <> EVENT_LBUTTONDOWN)
         [MouseEvent 0 5 5 0; MouseEvent 4 5 5 0; MouseEvent 2 7 9 0]
  /\ Forall (fun e => mouse_callback (ev_event e) (ev_x e) (ev_y e) (ev_flags e)
                        Recorder.session0 Recorder.store0
                      = (Recorder.session0, Recorder.store0, Ok tt))
            [MouseEvent 0 5 5 0; MouseEvent 4 5 5 0; MouseEvent 2 7 9 0]
  /\ dispatch [MouseEvent 0 5 5 0; MouseEvent 4 5 5 0; MouseEvent 2 7 9 0]
              Recorder.session0 Recorder.store0
     = (Recorder.session0, Recorder.store0, Ok tt).
Proof.
  assert (Hev : Forall (fun e => ev_event e <> EVENT_LBUTTONDOWN)
                       [MouseEvent 0 5 5 0; MouseEvent 4 5 5 0; MouseEvent 2 7 9 0]).
  { repeat constructor; cbn; unfold EVENT_LBUTTONDOWN; lia. }
  split; [exact Hev |].
  exact (other_events_change_nothing
           [MouseEvent 0 5 5 0; MouseEvent 4 5 5 0; MouseEvent 2 7 9 0]
           Recorder.session0 Recorder.store0 Hev).
Defined.

Section Drawing.
Context `{cv : OpenCV}.

Lemma in_place_ok (l : loc) (f : buffer -> result buffer) (b b' : buffer)
    (s : InteractiveHomography) (h : heap) :
  h !! l = Some b -> f b = Ok b' -> in_place l f s h = (s, <[l := b']> h, Ok tt).
Proof. intros Hl Hf. unfold in_place. now rewrite Hl, Hf. Qed.

(** Once the point is registered, what is left of the callback is the
    drawing. *)
Lemma mouse_callback_draws (x y flags : Z) (s : InteractiveHomography) (h : heap) :
  (length (corners s) < 4)%nat -> scale_factor s = F64.two ->
  Z.abs x < 2 ^ 53 -> Z.abs y < 2 ^ 53 ->
  mouse_callback EVENT_LBUTTONDOWN x y flags s h
  = draw_feedback x y
      (set_original_corners (original_corners s ++ [(2 * x, 2 * y)])
         (set_corners (corners s ++ [(x, y)]) s)) h.
Proof.
  intros Hlen Hk Hx Hy.
  unfold mouse_callback, mbind, M_bind.
  unfold bind at 1, gets at 1.
  replace ((EVENT_LBUTTONDOWN =? EVENT_LBUTTONDOWN) && (length (corners s) <? 4)%nat)
    with true by (symmetry; apply andb_true_iff; split;
                  [apply Z.eqb_refl | apply Nat.ltb_lt; exact Hlen]).
  unfold bind at 1, modify at 1. unfold bind at 1, gets at 1.
  cbn [scale_factor set_corners]. rewrite Hk.
  unfold bind at 1, lift at 1. rewrite (py_int_mul_two x Hx).
  unfold bind at 1, lift at 1. rewrite (py_int_mul_two y Hy).
  unfold bind at 1, modify at 1. reflexivity.
Qed.

(** The marker and the label of a click, drawn on the preview [b]. *)
Lemma draw_feedback_marker (x y : Z) (s : InteractiveHomography) (h : heap)
    (b b1 b2 : buffer) :
  h !! display_image s = Some b ->
  circle b (x, y) 5 (0, 255, 0) (-1) = Ok b1 ->
  putText b1 (pretty (length (corners s))) (x + 10, y - 10)
          FONT_HERSHEY_SIMPLEX font_scale (255, 0, 0) 2 = Ok b2 ->
  draw_feedback x y s h
  = bind (if (1 <? length (corners s))%nat then
            bind (gets corners) (fun cs =>
            bind (lift (py_index cs (-2))) (fun p =>
            bind (lift (py_index cs (-1))) (fun q =>
            in_place (display_image s) (fun b => line b p q (0, 0, 255) 2))))
          else ret tt)
         (fun _ =>
          if (length (corners s) =? 4)%nat then
            bind (gets corners) (fun cs =>
            bind (lift (py_index cs 3)) (fun p =>
            bind (lift (py_index cs 0)) (fun q =>
            in_place (display_image s) (fun b => line b p q (0, 0, 255) 2))))
          else ret tt)
         s (<[display_image s := b2]> h).
Proof.
  intros Hb Hc Ht. unfold draw_feedback, mbind, M_bind.
  unfold bind at 1, gets at 1.
  unfold bind at 1. rewrite (in_place_ok _ _ b b1 s h Hb Hc).
  unfold bind at 1, gets at 1.
  unfold bind at 1.
  rewrite (in_place_ok _ _ b1 b2 s (<[display_image s := b1]> h)
             (lookup_insert_eq _ _ _) Ht).
  rewrite insert_insert_eq. reflexivity.
Qed.

Lemma draw_segment (i j : Z) (cs : list point) (p q : point) (b b' : buffer)
    (s : InteractiveHomography) (h : heap) :
  corners s = cs -> py_index cs i = Ok p -> py_index cs j = Ok q ->
  h !! display_image s = Some b -> line b p q (0, 0, 255) 2 = Ok b' ->
  bind (gets corners) (fun cs =>
  bind (lift (py_index cs i)) (fun p =>
  bind (lift (py_index cs j)) (fun q =>
  in_place (display_image s) (fun b => line b p q (0, 0, 255) 2)))) s h
  = (s, <[display_image s := b']> h, Ok tt).
Proof.
  intros Hcs Hp Hq Hb Hl. unfold bind, gets, lift. rewrite Hcs, Hp, Hq.
  now apply in_place_ok with (b := b).
Qed.

(** X5: what a registered left click draws on the preview, in this
    order: a filled green circle of radius 5 at the click, the 1-based
    number of the point in blue at offset (+10, -10), from the second
    point on a red segment from the previous point to the new one, and
    with the fourth point a closing red segment from the fourth point to
    the first.  Nothing else is drawn and the other buffers stay. *)
Theorem registered_click_draws
    (x y flags : Z) (s : InteractiveHomography) (h : heap) (b b1 b2 : buffer) :
  (length (corners s) < 4)%nat -> scale_factor s = F64.two -> c_int x -> c_int y ->
  h !! display_image s = Some b ->
  circle b (x, y) 5 (0, 255, 0) (-1) = Ok b1 ->
  putText b1 (pretty (S (length (corners s)))) (x + 10, y - 10)
          FONT_HERSHEY_SIMPLEX font_scale (255, 0, 0) 2 = Ok b2 ->
  let s' := set_original_corners (original_corners s ++ [(2 * x, 2 * y)])
              (set_corners (corners s ++ [(x, y)]) s) in
  (corners s = [] ->
   mouse_callback EVENT_LBUTTONDOWN x y flags s h
   = (s', <[display_image s := b2]> h, Ok tt))
  /\ (forall (prev : list point) (p : point) (b3 : buffer),
        corners s = prev ++ [p] -> (length prev <= 1)%nat ->
        line b2 p (x, y) (0, 0, 255) 2 = Ok b3 ->
        mouse_callback EVENT_LBUTTONDOWN x y flags s h
        = (s', <[display_image s := b3]> h, Ok tt))
  /\ (forall (q c p : point) (b3 b4 : buffer),
        corners s = [q; c; p] ->
        line b2 p (x, y) (0, 0, 255) 2 = Ok b3 ->
        line b3 (x, y) q (0, 0, 255) 2 = Ok b4 ->
        mouse_callback EVENT_LBUTTONDOWN x y flags s h
        = (s', <[display_image s := b4]> h, Ok tt)).
Proof.
  intros Hlen Hk Hx Hy Hb Hc Ht s'.
  assert (E : mouse_callback EVENT_LBUTTONDOWN x y flags s h
              = draw_feedback x y s' h)
    by (apply mouse_callback_draws; auto using c_int_53).
  assert (Hcs' : corners s' = corners s ++ [(x, y)]) by reflexivity.
  assert (Hd : display_image s' = display_image s) by reflexivity.
  assert (Ht' : putText b1 (pretty (length (corners s'))) (x + 10, y - 10)
                        FONT_HERSHEY_SIMPLEX font_scale (255, 0, 0) 2 = Ok b2).
  { rewrite Hcs', length_app, Nat.add_1_r. exact Ht. }
  rewrite <- Hd in Hb.
  rewrite E, (draw_feedback_marker x y s' h b b1 b2 Hb Hc Ht').
  clearbody s'. clear E Ht' Ht Hc Hb.
  assert (Hb2 : <[display_image s' := b2]> h !! display_image s' = Some b2)
    by apply lookup_insert_eq.
  rewrite <- Hd.
  split; [| split].
  - intros Hcs. rewrite Hcs in Hcs'. rewrite Hcs'. reflexivity.
  - intros prev p b3 Hcs Hprev Hl. rewrite Hcs in Hcs'.
    destruct prev as [| c0 [| c1 prev]]; [| | cbn in Hprev; lia];
      cbn [app] in Hcs'; rewrite Hcs'; cbn [length Nat.ltb Nat.leb Nat.eqb];
      unfold bind at 1;
      rewrite (draw_segment (-2) (-1) _ p (x, y) b2 b3 s' _ Hcs' eq_refl eq_refl Hb2 Hl);
      rewrite insert_insert_eq; reflexivity.
  - intros q c p b3 b4 Hcs Hl3 Hl4. rewrite Hcs in Hcs'.
    cbn [app] in Hcs'. rewrite Hcs'. cbn [length Nat.ltb Nat.leb Nat.eqb].
    unfold bind at 1.
    rewrite (draw_segment (-2) (-1) _ p (x, y) b2 b3 s' _ Hcs' eq_refl eq_refl Hb2 Hl3).
    rewrite insert_insert_eq.
    rewrite (draw_segment 3 0 _ (x, y) q b3 b4 s' _ Hcs' eq_refl eq_refl
               (lookup_insert_eq _ _ _) Hl4).
    rewrite insert_insert_eq. reflexivity.
Qed.

End Drawing.

Lemma registered_click_draws_witness :
  (length (corners Recorder.session0) < 4)%nat
  /\ scale_factor Recorder.session0 = F64.two /\ c_int 50 /\ c_int 80
  /\ Recorder.store0 !! display_image Recorder.session0 = Some Recorder.preview0
  /\ circle Recorder.preview0 (50, 80) 5 (0, 255, 0) (-1)
     = Ok (Ndarray 240 320 [Recorder.DResized (320, 240);
                            Recorder.DCircle (50, 80) 5 (0, 255, 0) (-1)])
  /\ putText (OpenCV := Recorder.recorder)
             (Ndarray 240 320 [Recorder.DResized (320, 240);
                               Recorder.DCircle (50, 80) 5 (0, 255, 0) (-1)])
             (pretty (S (length (corners Recorder.session0)))) (50 + 10, 80 - 10)
             FONT_HERSHEY_SIMPLEX font_scale (255, 0, 0) 2
     = Ok (Recorder.marked 50 80 1 Recorder.preview0)
  /\ let s' := set_original_corners
                 (original_corners Recorder.session0 ++ [(2 * 50, 2 * 80)])
                 (set_corners (corners Recorder.session0 ++ [(50, 80)])
                              Recorder.session0) in
     (corners Recorder.session0 = [] ->
      mouse_callback EVENT_LBUTTONDOWN 50 80 0 Recorder.session0 Recorder.store0
      = (s', <[display_image Recorder.session0 :=
                 Recorder.marked 50 80 1 Recorder.preview0]> Recorder.store0, Ok tt))
     /\ (forall (prev : list point) (p : point) (b3 : ndarray (list Recorder.drawing)),
           corners Recorder.session0 = prev ++ [p] -> (length prev <= 1)%nat ->
           line (Recorder.marked 50 80 1 Recorder.preview0) p (50, 80) (0, 0, 255) 2
           = Ok b3 ->
           mouse_callback EVENT_LBUTTONDOWN 50 80 0 Recorder.session0 Recorder.store0
           = (s', <[display_image Recorder.session0 := b3]> Recorder.store0, Ok tt))
     /\ (forall (q c p : point) (b3 b4 : ndarray (list Recorder.drawing)),
           corners Recorder.session0 = [q; c; p] ->
           line (Recorder.marked 50 80 1 Recorder.preview0) p (50, 80) (0, 0, 255) 2
           = Ok b3 ->
           line (OpenCV := Recorder.recorder) b3 (50, 80) q (0, 0, 255) 2 = Ok b4 ->
           mouse_callback EVENT_LBUTTONDOWN 50 80 0 Recorder.session0 Recorder.store0
           = (s', <[display_image Recorder.session0 := b4]> Recorder.store0, Ok tt)).
Proof.
  assert (Hlen : (length (corners Recorder.session0) < 4)%nat) by (cbn; lia).
  assert (Hx : c_int 50) by (apply c_int_small; lia).
  assert (Hy : c_int 80) by (apply c_int_small; lia).
  split; [exact Hlen |]. split; [reflexivity |]. split; [exact Hx |]. split; [exact Hy |].
  split; [reflexivity |]. split; [reflexivity |]. split; [reflexivity |].
  exact (registered_click_draws 50 80 0 Recorder.session0 Recorder.store0
           Recorder.preview0 _ (Recorder.marked 50 80 1 Recorder.preview0)
           Hlen eq_refl Hx Hy eq_refl eq_refl eq_refl).
Defined.

Section Rectification.
Context `{cv : OpenCV}.

(** ** [transform] *)

Lemma transform_rectify (output_size : option (Z * Z)) (arr : list fpoint)
    (s : InteractiveHomography) (h : heap) :
  length (original_corners s) = 4%nat ->
  np_array_float32 (original_corners s) = Ok arr ->
  transform output_size s h = rectify arr output_size s h.
Proof.
  intros Hlen Hsrc. unfold transform, rectify, mbind, M_bind.
  unfold bind at 1, gets at 1. rewrite Hlen. cbn [Nat.eqb negb].
  unfold bind at 1, gets at 1.
  unfold bind at 1, lift at 1. rewrite Hsrc.
  destruct output_size as [[W H] |]; [reflexivity |].
  unfold bind at 1, lift at 1. symmetry. unfold bind at 1, lift at 1.
  destruct (compute_output_size arr) as [[W H] | e]; reflexivity.
Qed.

Lemma destination_exact (W H : Z) :
  Z.abs W < 2 ^ 52 -> Z.abs H < 2 ^ 52 ->
  destination W H = Ok (map to_float32 (dest_points W H)).
Proof.
  intros HW HH. unfold destination, dest_points.
  apply np_array_float32_round.
  repeat constructor; cbn [fst snd]; lia.
Qed.

Lemma sqrt_small (n : Z) : n < 2 ^ 24 -> 0 <= Z.sqrt n < 2 ^ 12.
Proof.
  intros Hn. split; [apply Z.sqrt_nonneg |].
  destruct (Z.lt_ge_cases n 0) as [Hneg | Hpos].
  - rewrite Z.sqrt_neg by lia. lia.
  - apply Z.sqrt_lt_square; lia.
Qed.

Lemma transform_none_small (c0 c1 c2 c3 : point) (s : InteractiveHomography) (h : heap) :
  original_corners s = [c0; c1; c2; c3] ->
  small_point c0 -> small_point c1 -> small_point c2 -> small_point c3 ->
  sqdist c2 c3 < 2 ^ 24 -> sqdist c1 c0 < 2 ^ 24 ->
  sqdist c1 c2 < 2 ^ 24 -> sqdist c0 c3 < 2 ^ 24 ->
  transform None s h
  = bind (lift (findHomography
                  (map to_float32 [c0; c1; c2; c3])
                  (map to_float32 (dest_points (fst (euclid_output_size c0 c1 c2 c3))
                                               (snd (euclid_output_size c0 c1 c2 c3))))))
         (fun Hm => resample Hm (euclid_output_size c0 c1 c2 c3)) s h.
Proof.
  intros Hoc H0 H1 H2 H3 D23 D10 D12 D03.
  assert (Hs : Forall small_point [c0; c1; c2; c3])
    by (repeat (constructor; [assumption |]); constructor).
  rewrite (transform_rectify None (map to_float32 [c0; c1; c2; c3]))
    by (rewrite Hoc; first [reflexivity | now apply np_array_float32_small]).
  unfold rectify. unfold bind at 1, lift at 1.
  cbn [map]. unfold compute_output_size.
  rewrite !py_int_norm by assumption. cbn [result_bind].
  rewrite !sqrt_max. fold (euclid_output_size c0 c1 c2 c3).
  unfold bind at 1, lift at 1.
  rewrite destination_exact; [reflexivity | |]; unfold euclid_output_size; cbn [fst snd].
  - pose proof (sqrt_small (Z.max (sqdist c2 c3) (sqdist c1 c0))). lia.
  - pose proof (sqrt_small (Z.max (sqdist c1 c2) (sqdist c0 c3))). lia.
Qed.

(** X6: called without a size on four corners that single precision
    holds exactly (coordinates below 2^24, edges shorter than 4096),
    [transform] asks [cv2.findHomography] for the map from the corners
    onto the rectangle [(0,0), (W-1,0), (W-1,H-1), (0,H-1)] and resamples
    to the canvas [(W, H)], where [W] and [H] are the floors of the
    longer of the two horizontal and the two vertical edges; both are
    between 0 and 4095. *)
Theorem transform_derives_canvas
    (c0 c1 c2 c3 : point) (s : InteractiveHomography) (h : heap) :
  original_corners s = [c0; c1; c2; c3] ->
  small_point c0 -> small_point c1 -> small_point c2 -> small_point c3 ->
  sqdist c2 c3 < 2 ^ 24 -> sqdist c1 c0 < 2 ^ 24 ->
  sqdist c1 c2 < 2 ^ 24 -> sqdist c0 c3 < 2 ^ 24 ->
  let W := Z.sqrt (Z.max (sqdist c2 c3) (sqdist c1 c0)) in
  let H := Z.sqrt (Z.max (sqdist c1 c2) (sqdist c0 c3)) in
  0 <= W < 4096 /\ 0 <= H < 4096
  /\ transform None s h
     = bind (lift (findHomography (map to_float32 [c0; c1; c2; c3])
                                  (map to_float32 (dest_points W H))))
            (fun Hm => resample Hm (W, H)) s h.
Proof.
  intros Hoc H0 H1 H2 H3 D23 D10 D12 D03 W H.
  split; [| split].
  - subst W. pose proof (sqrt_small (Z.max (sqdist c2 c3) (sqdist c1 c0))). lia.
  - subst H. pose proof (sqrt_small (Z.max (sqdist c1 c2) (sqdist c0 c3))). lia.
  - now apply transform_none_small.
Qed.

(** X7: the corners are not checked for degeneracy.  When the four
    registered points are one and the same point, [transform] without a
    size goes on with an empty canvas: it asks for the homography onto
    [(0,0), (-1,0), (-1,-1), (0,-1)] and resamples to size (0, 0). *)
Theorem transform_coincident_corners
    (p : point) (s : InteractiveHomography) (h : heap) :
  original_corners s = [p; p; p; p] -> small_point p ->
  transform None s h
  = bind (lift (findHomography (map to_float32 [p; p; p; p])
                               (map to_float32 [(0, 0); (-1, 0); (-1, -1); (0, -1)])))
         (fun Hm => resample Hm (0, 0)) s h.
Proof.
  intros Hoc Hp.
  assert (D : sqdist p p = 0) by (unfold sqdist; lia).
  rewrite (transform_none_small p p p p s h Hoc) by (try assumption; rewrite D; lia).
  unfold euclid_output_size. rewrite D. reflexivity.
Qed.

(** X8: a [transform] whose library calls succeed leaves the object and
    every buffer as they are and adds one buffer: the resampling of the
    full-resolution copy [original_image] (not of the preview with its
    markers) through the matrix [cv2.findHomography] gave, at the
    requested size; it returns that buffer and the matrix as given. *)
Theorem transform_warps_original
    (W H : Z) (arr : list fpoint) (Hm : option matrix) (b wb : buffer)
    (s : InteractiveHomography) (h : heap) :
  1 <= W <= INT_MAX -> 1 <= H <= INT_MAX ->
  length (original_corners s) = 4%nat ->
  np_array_float32 (original_corners s) = Ok arr ->
  findHomography arr (map to_float32 (dest_points W H)) = Ok Hm ->
  h !! original_image s = Some b ->
  warpPerspective b Hm (W, H) = Ok wb ->
  h !! fresh (dom h) = None
  /\ transform (Some (W, H)) s h
     = (s, <[fresh (dom h) := wb]> h, Ok (fresh (dom h), Hm)).
Proof.
  intros HW HH Hlen Hsrc Hf Hb Hw.
  split; [apply not_elem_of_dom, is_fresh |].
  rewrite (transform_explicit_size W H arr s h HW HH Hlen Hsrc).
  unfold bind at 1, lift at 1. rewrite Hf.
  unfold resample, bind, gets, read, new_array, ret, alloc. now rewrite Hb, Hw.
Qed.

(** X9: [transform] catches nothing, with a size or, as the entry point
    calls it, without one.  Once the canvas size and the destination
    array are there, when [cv2.findHomography] raises, or when
    [cv2.warpPerspective] raises on the matrix it is handed (a [None]
    included, which is passed on unchecked), [transform] raises that
    very exception and the object and the store are as before the
    call. *)
Theorem transform_propagates_library_errors
    (output_size : option (Z * Z)) (W H : Z) (arr dst : list fpoint) (e : exn)
    (s : InteractiveHomography) (h : heap) :
  length (original_corners s) = 4%nat ->
  np_array_float32 (original_corners s) = Ok arr ->
  match output_size with
  | None => compute_output_size arr
  | Some size => Ok size
  end = Ok (W, H) ->
  destination W H = Ok dst ->
  (findHomography arr dst = Raise e
   \/ exists Hm b,
        findHomography arr dst = Ok Hm
        /\ h !! original_image s = Some b
        /\ warpPerspective b Hm (W, H) = Raise e) ->
  transform output_size s h = (s, h, Raise e).
Proof.
  intros Hlen Hsrc Hsize Hdst Hlib.
  rewrite (transform_rectify output_size arr s h Hlen Hsrc).
  unfold rectify.
  assert (Es : (match output_size with
                | None => lift (compute_output_size arr)
                | Some size => ret size
                end) s h = (s, h, Ok (W, H))).
  { destruct output_size as [size |].
    - inversion Hsize; subst. reflexivity.
    - unfold lift. now rewrite Hsize. }
  unfold bind at 1. rewrite Es. cbn [fst snd].
  unfold bind at 1, lift at 1. rewrite Hdst.
  unfold bind at 1, lift at 1.
  destruct Hlib as [Hf | (Hm & b & Hf & Hb & Hw)]; rewrite Hf; [reflexivity |].
  unfold resample, bind, gets, read, new_array. now rewrite Hb, Hw.
Qed.

End Rectification.

Section WholeSession.
Context `{io : ImageIO}.

(** ** [select_corners], [transform] and the entry point together *)

Lemma transform_too_few (output_size : option (Z * Z))
    (s : InteractiveHomography) (h : heap) :
  length (original_corners s) <> 4%nat ->
  transform output_size s h = (s, h, Raise (ValueError NeedCornersFirst)).
Proof.
  intros Hlen. unfold transform, mbind, M_bind, bind, gets, lift.
  apply Nat.eqb_neq in Hlen. now rewrite Hlen.
Qed.

Lemma select_corners_registered (events : list mouse_event)
    (s : InteractiveHomography) (h : heap) :
  corners s = [] -> original_corners s = [] -> scale_factor s = F64.two ->
  Forall c_int_event events ->
  exists h1,
    frame (display_image s) h h1
    /\ select_corners events s h
       = (set_original_corners (map to_source (take 4 (left_clicks events)))
            (set_corners (take 4 (left_clicks events)) s), h1,
          if (length (take 4 (left_clicks events)) =? 4)%nat
          then Ok (map to_float32 (map to_source (take 4 (left_clicks events))))
          else Raise (ValueError NeedFourCorners)).
Proof.
  intros Hc Ho Hk Hev.
  destruct (dispatch_registered events s h Hk Hev) as (h1 & E & F).
  { rewrite Hc. cbn. lia. }
  { now rewrite Hc, Ho. }
  exists h1. split; [exact F |].
  rewrite (select_corners_after_dispatch _ _ _ _ _ E).
  rewrite Hc, app_nil_l.
  cbn [corners original_corners set_corners set_original_corners].
  destruct (length (take 4 (left_clicks events)) =? 4)%nat; [| reflexivity].
  cbn [negb]. rewrite np_array_float32_round; [reflexivity |].
  apply Forall_map, Forall_take, left_clicks_Forall.
  eapply Forall_impl; [exact Hev |]. intros e [Hx Hy]. now apply c_int_to_source_53.
Qed.

(** X10: [select_corners] and [transform] agree on a fresh object.  When
    [select_corners] returns, its array holds the doubled first four
    left clicks in single precision, and [transform] does not raise its
    own [ValueError] but rectifies exactly that array; when
    [select_corners] raises, it is for want of four points, and a
    [transform] called all the same raises its [ValueError] and changes
    nothing. *)
Theorem transform_uses_selected_corners
    (events : list mouse_event) (output_size : option (Z * Z))
    (s : InteractiveHomography) (h : heap) :
  corners s = [] -> original_corners s = [] -> scale_factor s = F64.two ->
  Forall c_int_event events ->
  let '(s1, h1, r) := select_corners events s h in
  match r with
  | Ok arr =>
      length arr = 4%nat
      /\ arr = map to_float32 (map to_source (take 4 (left_clicks events)))
      /\ transform output_size s1 h1 = rectify arr output_size s1 h1
  | Raise e =>
      e = ValueError NeedFourCorners
      /\ transform output_size s1 h1 = (s1, h1, Raise (ValueError NeedCornersFirst))
  end.
Proof.
  intros Hc Ho Hk Hev.
  destruct (select_corners_registered events s h Hc Ho Hk Hev) as (h1 & _ & E).
  rewrite E. set (cs := take 4 (left_clicks events)).
  assert (Hbound : Forall (fun p => Z.abs (fst p) < 2 ^ 53 /\ Z.abs (snd p) < 2 ^ 53)
                          (map to_source cs)).
  { apply Forall_map, Forall_take, left_clicks_Forall.
    eapply Forall_impl; [exact Hev |]. intros e [Hx Hy]. now apply c_int_to_source_53. }
  destruct (length cs =? 4)%nat eqn:H4.
  - apply Nat.eqb_eq in H4.
    split; [now rewrite !length_map |]. split; [reflexivity |].
    apply transform_rectify.
    + cbn [original_corners set_original_corners]. now rewrite length_map.
    + cbn [original_corners set_original_corners]. now apply np_array_float32_round.
  - apply Nat.eqb_neq in H4. split; [reflexivity |].
    apply transform_too_few. cbn [original_corners set_original_corners].
    now rewrite length_map.
Qed.

Lemma py_int_round32 (z : Z) : Z.abs z < 2 ^ 24 -> py_int (round32 z) = Ok z.
Proof.
  intros Hz. destruct (Z.eq_dec z 0) as [-> | Hnz]; [reflexivity |].
  destruct (round32_finite z Hnz Hz) as (m & e & -> & He & Hm & _).
  cbn [py_int]. rewrite shiftl_neg_div by exact He. rewrite Hm.
  rewrite Z.div_mul by (apply Z.pow_nonzero; lia).
  f_equal. destruct (Z.ltb_spec z 0); cbn [cond_Zopp]; lia.
Qed.

(** X13: the corner array read back.  For source points with
    coordinates below 2^24 in absolute value, the single-precision array
    [select_corners] builds holds them exactly: the [int(corner[0])],
    [int(corner[1])] the entry point prints for its rows are the
    registered points themselves, in order. *)
Theorem printed_corners_are_the_registered_points (l : list point) :
  Forall small_point l ->
  result_bind (np_array_float32 l) print_corners = Ok l.
Proof.
  intros Hs. rewrite np_array_float32_small by exact Hs. cbn [result_bind].
  induction Hs as [| [x y] r [Hx Hy] Hr IH]; [reflexivity |].
  cbn [map print_corners to_float32 fst snd] in *.
  rewrite (py_int_round32 x Hx), (py_int_round32 y Hy). cbn [result_bind].
  now rewrite IH.
Qed.

(** X11: the entry point with fewer than four left clicks in a session
    that started: it raises the [ValueError] of [select_corners], writes
    no file, and the buffers of the image as read and of its copy are as
    the constructor left them. *)
Theorem interactive_transform_needs_four_clicks
    (cwd image_path : string) (output_path : option string)
    (events : list mouse_event) (h h1 : heap) (s0 : InteractiveHomography) :
  init cwd image_path h = (h1, Ok s0) -> Forall c_int_event events ->
  (length (left_clicks events) < 4)%nat ->
  exists h2,
    interactive_transform cwd image_path output_path events h
    = (h2, [], Raise (ValueError NeedFourCorners))
    /\ h2 !! image s0 = h1 !! image s0
    /\ h2 !! original_image s0 = h1 !! original_image s0.
Proof.
  intros Hi Hev Hlen.
  destruct (init_session _ _ _ _ _ Hi) as (Hc & Ho & Hk & _ & _ & Hsep & _).
  destruct Hsep as (_ & _ & _ & Nid & Nod & _).
  destruct (select_corners_registered events s0 h1 Hc Ho Hk Hev) as (h2 & [_ F] & E).
  exists h2. unfold interactive_transform. rewrite Hi, E.
  replace (length (take 4 (left_clicks events)) =? 4)%nat with false.
  - split; [reflexivity |]. split; now apply F.
  - symmetry. apply Nat.eqb_neq. rewrite length_take. lia.
Qed.

(** X2: an image that cannot be read.  When [cv2.imread] gives nothing
    for [<cwd>/interactive/<image_path>], the constructor raises its
    [ValueError] with the path as the caller gave it, and so does the
    entry point, whatever the pointer events and the output path: no
    buffer is allocated and no file is written. *)
Theorem unreadable_image_raises_before_interaction
    (cwd image_path : string) (output_path : option string)
    (events : list mouse_event) (h : heap) :
  imread (replace_backslash cwd +:+ "/interactive/" +:+ image_path)%string = None ->
  init cwd image_path h = (h, Raise (ValueError (CannotReadImage image_path)))
  /\ interactive_transform cwd image_path output_path events h
     = (h, [], Raise (ValueError (CannotReadImage image_path))).
Proof.
  intros Hr. pose proof (init_unreadable_image cwd image_path h Hr) as Hi.
  split; [exact Hi |]. unfold interactive_transform. now rewrite Hi.
Qed.

(** X12: the entry point writes last.  When it raises, no file has been
    written.  When it returns [(warped, H)], [warped] is a buffer of the
    store and the only call of [cv2.imwrite] was for that buffer, at the
    given path or, when there is none, at
    ["interactive/interactive_result.jpg"]; a [False] from
    [cv2.imwrite] goes unnoticed: the function returns all the same and
    no file is there. *)
Theorem interactive_transform_writes_last
    (cwd image_path : string) (output_path : option string)
    (events : list mouse_event) (h : heap) :
  let '(h', written, r) := interactive_transform cwd image_path output_path events h in
  let p := match output_path with
           | None => default_output_path
           | Some p => p
           end in
  match r with
  | Raise _ => written = []
  | Ok (warped, _) =>
      exists b, h' !! warped = Some b
                /\ ((imwrite p b = Ok true /\ written = [(p, b)])
                    \/ (imwrite p b = Ok false /\ written = []))
  end.
Proof.
  unfold interactive_transform.
  destruct (init cwd image_path h) as [h1 [s0 | e]]; [| reflexivity].
  destruct (select_corners events s0 h1) as [[s1 h2] [arr | e]]; [| reflexivity].
  destruct (print_corners arr) as [printed | e]; [| reflexivity].
  destruct (transform None s1 h2) as [[s2 h3] [[warped Hm] | e]]; [| reflexivity].
  destruct (h3 !! warped) as [b |] eqn:Hb; [| reflexivity].
  destruct (imwrite _ b) as [[|] | e] eqn:Hw; [| | reflexivity].
  - exists b. split; [exact Hb |]. left. split; [exact Hw | reflexivity].
  - exists b. split; [exact Hb |]. right. split; [exact Hw | reflexivity].
Qed.

End WholeSession.

Section ClickOrder.

Ltac small_list :=
  repeat (apply List.Forall_cons; [assumption |]); apply List.Forall_nil.

Lemma sqdist_sym (p q : point) : sqdist p q = sqdist q p.
Proof. unfold sqdist. ring. Qed.

Lemma output_size_small (c0 c1 c2 c3 : point) :
  Forall small_point [c0; c1; c2; c3] ->
  sqdist c2 c3 < 2 ^ 24 -> sqdist c1 c0 < 2 ^ 24 ->
  sqdist c1 c2 < 2 ^ 24 -> sqdist c0 c3 < 2 ^ 24 ->
  result_bind (np_array_float32 [c0; c1; c2; c3]) compute_output_size
  = Ok (Z.max (Z.sqrt (sqdist c2 c3)) (Z.sqrt (sqdist c1 c0)),
        Z.max (Z.sqrt (sqdist c1 c2)) (Z.sqrt (sqdist c0 c3))).
Proof.
  intros Hs D23 D10 D12 D03. rewrite (np_array_float32_small _ Hs).
  inversion Hs as [| ? ? H0 Hs1]; subst. inversion Hs1 as [| ? ? H1 Hs2]; subst.
  inversion Hs2 as [| ? ? H2 Hs3]; subst. inversion Hs3 as [| ? ? H3 _]; subst.
  cbn [map result_bind]. unfold compute_output_size.
  rewrite !py_int_norm by assumption. reflexivity.
Qed.

(** X14: the output size and the order of the clicks.  For corners that
    single precision holds exactly (coordinates below 2^24, edges shorter
    than 4096): starting the same tour of the quadrilateral at the
    opposite corner, or walking it in the other direction (top-right,
    top-left, bottom-left, bottom-right), gives the same size, while
    starting one corner later swaps width and height. *)
Theorem output_size_and_click_order (c0 c1 c2 c3 : point) (W H : Z) :
  Forall small_point [c0; c1; c2; c3] ->
  sqdist c2 c3 < 2 ^ 24 -> sqdist c1 c0 < 2 ^ 24 ->
  sqdist c1 c2 < 2 ^ 24 -> sqdist c0 c3 < 2 ^ 24 ->
  result_bind (np_array_float32 [c0; c1; c2; c3]) compute_output_size = Ok (W, H) ->
  result_bind (np_array_float32 [c2; c3; c0; c1]) compute_output_size = Ok (W, H)
  /\ result_bind (np_array_float32 [c1; c0; c3; c2]) compute_output_size = Ok (W, H)
  /\ result_bind (np_array_float32 [c1; c2; c3; c0]) compute_output_size = Ok (H, W).
Proof.
  intros Hs D23 D10 D12 D03 E.
  rewrite output_size_small in E by assumption. inversion E as [[EW EH]]; clear E.
  inversion Hs as [| ? ? H0 Hs1]; subst. inversion Hs1 as [| ? ? H1 Hs2]; subst.
  inversion Hs2 as [| ? ? H2 Hs3]; subst. inversion Hs3 as [| ? ? H3 _]; subst.
  assert (D32 : sqdist c3 c2 < 2 ^ 24) by now rewrite sqdist_sym.
  assert (D01 : sqdist c0 c1 < 2 ^ 24) by now rewrite sqdist_sym.
  assert (D21 : sqdist c2 c1 < 2 ^ 24) by now rewrite sqdist_sym.
  assert (D30 : sqdist c3 c0 < 2 ^ 24) by now rewrite sqdist_sym.
  split; [| split].
  - rewrite (output_size_small c2 c3 c0 c1) by (small_list || assumption).
    rewrite (sqdist_sym c0 c1), (sqdist_sym c3 c2), (sqdist_sym c3 c0),
      (sqdist_sym c2 c1).
    f_equal. f_equal; apply Z.max_comm.
  - rewrite (output_size_small c1 c0 c3 c2) by (small_list || assumption).
    rewrite (sqdist_sym c3 c2), (sqdist_sym c0 c1), (sqdist_sym c0 c3),
      (sqdist_sym c1 c2).
    f_equal. f_equal; apply Z.max_comm.
  - rewrite (output_size_small c1 c2 c3 c0) by (small_list || assumption).
    rewrite (sqdist_sym c3 c0), (sqdist_sym c2 c1).
    f_equal. f_equal; apply Z.max_comm.
Qed.

End ClickOrder.

(** ** The further properties on the sample session *)

Lemma transform_derives_canvas_witness :
  original_corners
    (set_original_corners [(0, 0); (80, 0); (153, 108); (53, 108)] Recorder.session0)
  = [(0, 0); (80, 0); (153, 108); (53, 108)]
  /\ small_point (0, 0) /\ small_point (80, 0) /\ small_point (153, 108)
  /\ small_point (53, 108)
  /\ sqdist (153, 108) (53, 108) < 2 ^ 24 /\ sqdist (80, 0) (0, 0) < 2 ^ 24
  /\ sqdist (80, 0) (153, 108) < 2 ^ 24 /\ sqdist (0, 0) (53, 108) < 2 ^ 24
  /\ let W := Z.sqrt (Z.max (sqdist (153, 108) (53, 108)) (sqdist (80, 0) (0, 0))) in
     let H := Z.sqrt (Z.max (sqdist (80, 0) (153, 108)) (sqdist (0, 0) (53, 108))) in
     0 <= W < 4096 /\ 0 <= H < 4096
     /\ transform None
          (set_original_corners [(0, 0); (80, 0); (153, 108); (53, 108)] Recorder.session0)
          Recorder.store0
        = bind (lift (findHomography
                        (map to_float32 [(0, 0); (80, 0); (153, 108); (53, 108)])
                        (map to_float32 (dest_points W H))))
               (fun Hm => resample Hm (W, H))
               (set_original_corners [(0, 0); (80, 0); (153, 108); (53, 108)]
                                     Recorder.session0)
               Recorder.store0.
Proof.
  assert (S0 : small_point (0, 0)) by (apply small_point_literal; cbn; lia).
  assert (S1 : small_point (80, 0)) by (apply small_point_literal; cbn; lia).
  assert (S2 : small_point (153, 108)) by (apply small_point_literal; cbn; lia).
  assert (S3 : small_point (53, 108)) by (apply small_point_literal; cbn; lia).
  assert (D23 : sqdist (153, 108) (53, 108) < 2 ^ 24) by (vm_compute; reflexivity).
  assert (D10 : sqdist (80, 0) (0, 0) < 2 ^ 24) by (vm_compute; reflexivity).
  assert (D12 : sqdist (80, 0) (153, 108) < 2 ^ 24) by (vm_compute; reflexivity).
  assert (D03 : sqdist (0, 0) (53, 108) < 2 ^ 24) by (vm_compute; reflexivity).
  split; [reflexivity |].
  split; [exact S0 |]. split; [exact S1 |]. split; [exact S2 |]. split; [exact S3 |].
  split; [exact D23 |]. split; [exact D10 |]. split; [exact D12 |]. split; [exact D03 |].
  exact (transform_derives_canvas (0, 0) (80, 0) (153, 108) (53, 108)
           (set_original_corners [(0, 0); (80, 0); (153, 108); (53, 108)] Recorder.session0)
           Recorder.store0 eq_refl S0 S1 S2 S3 D23 D10 D12 D03).
Defined.

Lemma transform_coincident_corners_witness :
  original_corners
    (set_original_corners [(100, 160); (100, 160); (100, 160); (100, 160)]
                          Recorder.session0)
  = [(100, 160); (100, 160); (100, 160); (100, 160)]
  /\ small_point (100, 160)
  /\ transform None
       (set_original_corners [(100, 160); (100, 160); (100, 160); (100, 160)]
                             Recorder.session0)
       Recorder.store0
     = bind (lift (findHomography
                     (map to_float32 [(100, 160); (100, 160); (100, 160); (100, 160)])
                     (map to_float32 [(0, 0); (-1, 0); (-1, -1); (0, -1)])))
            (fun Hm => resample Hm (0, 0))
            (set_original_corners [(100, 160); (100, 160); (100, 160); (100, 160)]
                                  Recorder.session0)
            Recorder.store0.
Proof.
  assert (S0 : small_point (100, 160)) by (apply small_point_literal; cbn; lia).
  split; [reflexivity |]. split; [exact S0 |].
  exact (transform_coincident_corners (100, 160)
           (set_original_corners [(100, 160); (100, 160); (100, 160); (100, 160)]
                                 Recorder.session0)
           Recorder.store0 eq_refl S0).
Defined.

Lemma transform_warps_original_witness :
  1 <= 100 <= INT_MAX /\ 1 <= 100 <= INT_MAX
  /\ length (original_corners
               (set_original_corners [(0, 0); (99, 0); (99, 99); (0, 99)]
                                     Recorder.session0)) = 4%nat
  /\ np_array_float32
       (original_corners
          (set_original_corners [(0, 0); (99, 0); (99, 99); (0, 99)] Recorder.session0))
     = Ok (map to_float32 [(0, 0); (99, 0); (99, 99); (0, 99)])
  /\ findHomography (OpenCV := Recorder.recorder)
       (map to_float32 [(0, 0); (99, 0); (99, 99); (0, 99)])
       (map to_float32 (dest_points 100 100))
     = Ok (Some (map to_float32 [(0, 0); (99, 0); (99, 99); (0, 99)],
                 map to_float32 (dest_points 100 100)))
  /\ Recorder.store0
       !! original_image
            (set_original_corners [(0, 0); (99, 0); (99, 99); (0, 99)] Recorder.session0)
     = Some (Ndarray 480 640 [])
  /\ warpPerspective (OpenCV := Recorder.recorder) (Ndarray 480 640 [])
       (Some (map to_float32 [(0, 0); (99, 0); (99, 99); (0, 99)],
              map to_float32 (dest_points 100 100)))
       (100, 100)
     = Ok (Ndarray 100 100 [Recorder.DWarped (100, 100)])
  /\ Recorder.store0 !! fresh (dom Recorder.store0) = None
  /\ transform (Some (100, 100))
       (set_original_corners [(0, 0); (99, 0); (99, 99); (0, 99)] Recorder.session0)
       Recorder.store0
     = (set_original_corners [(0, 0); (99, 0); (99, 99); (0, 99)] Recorder.session0,
        <[fresh (dom Recorder.store0) := Ndarray 100 100 [Recorder.DWarped (100, 100)]]>
          Recorder.store0,
        Ok (fresh (dom Recorder.store0),
            Some (map to_float32 [(0, 0); (99, 0); (99, 99); (0, 99)],
                  map to_float32 (dest_points 100 100)))).
Proof.
  assert (HW : 1 <= 100 <= INT_MAX) by (unfold INT_MAX; lia).
  assert (Hsrc : np_array_float32
                   (original_corners
                      (set_original_corners [(0, 0); (99, 0); (99, 99); (0, 99)]
                                            Recorder.session0))
                 = Ok (map to_float32 [(0, 0); (99, 0); (99, 99); (0, 99)]))
    by (vm_compute; reflexivity).
  split; [exact HW |]. split; [exact HW |]. split; [reflexivity |].
  split; [exact Hsrc |]. split; [reflexivity |]. split; [reflexivity |].
  split; [reflexivity |].
  exact (transform_warps_original (cv := Recorder.recorder) 100 100 _ _
           (Ndarray 480 640 []) _
           (set_original_corners [(0, 0); (99, 0); (99, 99); (0, 99)] Recorder.session0)
           Recorder.store0 HW HW eq_refl Hsrc eq_refl eq_refl eq_refl).
Defined.

(** The collinear corners (0,0), (10,0), (20,0), (30,0), rectified
    without a size by a library that finds no homography. *)
Lemma transform_propagates_library_errors_witness :
  length (original_corners
            (set_original_corners [(0, 0); (10, 0); (20, 0); (30, 0)]
                                  Recorder.session0)) = 4%nat
  /\ np_array_float32
       (original_corners
          (set_original_corners [(0, 0); (10, 0); (20, 0); (30, 0)] Recorder.session0))
     = Ok (map to_float32 [(0, 0); (10, 0); (20, 0); (30, 0)])
  /\ compute_output_size (map to_float32 [(0, 0); (10, 0); (20, 0); (30, 0)])
     = Ok (10, 30)
  /\ destination 10 30 = Ok (map to_float32 (dest_points 10 30))
  /\ (findHomography (OpenCV := Recorder.blind)
        (map to_float32 [(0, 0); (10, 0); (20, 0); (30, 0)])
        (map to_float32 (dest_points 10 30))
      = Raise CvError
      \/ exists Hm b,
           findHomography (OpenCV := Recorder.blind)
             (map to_float32 [(0, 0); (10, 0); (20, 0); (30, 0)])
             (map to_float32 (dest_points 10 30))
           = Ok Hm
           /\ Recorder.store0
                !! original_image
                     (set_original_corners [(0, 0); (10, 0); (20, 0); (30, 0)]
                                           Recorder.session0)
              = Some b
           /\ warpPerspective (OpenCV := Recorder.blind) b Hm (10, 30) = Raise CvError)
  /\ transform (cv := Recorder.blind) None
       (set_original_corners [(0, 0); (10, 0); (20, 0); (30, 0)] Recorder.session0)
       Recorder.store0
     = (set_original_corners [(0, 0); (10, 0); (20, 0); (30, 0)] Recorder.session0,
        Recorder.store0, Raise CvError).
Proof.
  assert (Hsrc : np_array_float32
                   (original_corners
                      (set_original_corners [(0, 0); (10, 0); (20, 0); (30, 0)]
                                            Recorder.session0))
                 = Ok (map to_float32 [(0, 0); (10, 0); (20, 0); (30, 0)]))
    by (vm_compute; reflexivity).
  assert (Hsize : compute_output_size (map to_float32 [(0, 0); (10, 0); (20, 0); (30, 0)])
                  = Ok (10, 30)) by (vm_compute; reflexivity).
  assert (Hdst : destination 10 30 = Ok (map to_float32 (dest_points 10 30)))
    by (vm_compute; reflexivity).
  assert (Hlib :
    findHomography (OpenCV := Recorder.blind)
      (map to_float32 [(0, 0); (10, 0); (20, 0); (30, 0)])
      (map to_float32 (dest_points 10 30))
    = Raise CvError
    \/ exists Hm b,
         findHomography (OpenCV := Recorder.blind)
           (map to_float32 [(0, 0); (10, 0); (20, 0); (30, 0)])
           (map to_float32 (dest_points 10 30))
         = Ok Hm
         /\ Recorder.store0
              !! original_image
                   (set_original_corners [(0, 0); (10, 0); (20, 0); (30, 0)]
                                         Recorder.session0)
            = Some b
         /\ warpPerspective (OpenCV := Recorder.blind) b Hm (10, 30) = Raise CvError).
  { right. exists None, (Ndarray 480 640 []).
    split; [reflexivity |]. split; reflexivity. }
  split; [reflexivity |]. split; [exact Hsrc |]. split; [exact Hsize |].
  split; [exact Hdst |]. split; [exact Hlib |].
  exact (transform_propagates_library_errors (cv := Recorder.blind) None 10 30 _ _ CvError
           (set_original_corners [(0, 0); (10, 0); (20, 0); (30, 0)] Recorder.session0)
           Recorder.store0 eq_refl Hsrc Hsize Hdst Hlib).
Defined.

Lemma transform_uses_selected_corners_witness :
  corners Recorder.session0 = [] /\ original_corners Recorder.session0 = []
  /\ scale_factor Recorder.session0 = F64.two
  /\ Forall c_int_event
       [Recorder.click 10 10; Recorder.click 300 10; Recorder.click 300 200;
        Recorder.click 10 200]
  /\ let '(s1, h1, r) :=
       select_corners
         [Recorder.click 10 10; Recorder.click 300 10; Recorder.click 300 200;
          Recorder.click 10 200]
         Recorder.session0 Recorder.store0 in
     match r with
     | Ok arr =>
         length arr = 4%nat
         /\ arr = map to_float32
                    (map to_source
                       (take 4 (left_clicks
                                  [Recorder.click 10 10; Recorder.click 300 10;
                                   Recorder.click 300 200; Recorder.click 10 200])))
         /\ transform None s1 h1 = rectify arr None s1 h1
     | Raise e =>
         e = ValueError NeedFourCorners
         /\ transform None s1 h1 = (s1, h1, Raise (ValueError NeedCornersFirst))
     end.
Proof.
  assert (Hev : Forall c_int_event
                  [Recorder.click 10 10; Recorder.click 300 10; Recorder.click 300 200;
                   Recorder.click 10 200]).
  { repeat constructor; apply c_int_small; cbn; lia. }
  split; [reflexivity |]. split; [reflexivity |]. split; [reflexivity |].
  split; [exact Hev |].
  exact (transform_uses_selected_corners
           [Recorder.click 10 10; Recorder.click 300 10; Recorder.click 300 200;
            Recorder.click 10 200] None Recorder.session0 Recorder.store0
           eq_refl eq_refl eq_refl Hev).
Defined.

Lemma printed_corners_are_the_registered_points_witness :
  Forall small_point [(20, 20); (600, 20); (600, 400); (20, 400)]
  /\ result_bind (np_array_float32 [(20, 20); (600, 20); (600, 400); (20, 400)])
                 print_corners
     = Ok [(20, 20); (600, 20); (600, 400); (20, 400)].
Proof.
  assert (Hs : Forall small_point [(20, 20); (600, 20); (600, 400); (20, 400)]).
  { repeat (apply List.Forall_cons; [apply small_point_literal; cbn; lia |]).
    apply List.Forall_nil. }
  split; [exact Hs |].
  exact (printed_corners_are_the_registered_points _ Hs).
Defined.

Lemma interactive_transform_needs_four_clicks_witness :
  init "/work" "example.jpg" Recorder.empty_store = (Recorder.store0, Ok Recorder.session0)
  /\ Forall c_int_event [Recorder.click 10 10; MouseEvent 0 15 15 0; Recorder.click 300 10]
  /\ (length (left_clicks [Recorder.click 10 10; MouseEvent 0 15 15 0;
                           Recorder.click 300 10]) < 4)%nat
  /\ exists h2,
       interactive_transform (io := Recorder.recorder_io) "/work" "example.jpg" None
         [Recorder.click 10 10; MouseEvent 0 15 15 0; Recorder.click 300 10]
         Recorder.empty_store
       = (h2, [], Raise (ValueError NeedFourCorners))
       /\ h2 !! image Recorder.session0 = Recorder.store0 !! image Recorder.session0
       /\ h2 !! original_image Recorder.session0
          = Recorder.store0 !! original_image Recorder.session0.
Proof.
  assert (Hev : Forall c_int_event
                  [Recorder.click 10 10; MouseEvent 0 15 15 0; Recorder.click 300 10]).
  { repeat constructor; apply c_int_small; cbn; lia. }
  assert (Hlen : (length (left_clicks [Recorder.click 10 10; MouseEvent 0 15 15 0;
                                       Recorder.click 300 10]) < 4)%nat)
    by (cbn; lia).
  split; [exact start_value |]. split; [exact Hev |]. split; [exact Hlen |].
  exact (interactive_transform_needs_four_clicks (io := Recorder.recorder_io)
           "/work" "example.jpg" None
           [Recorder.click 10 10; MouseEvent 0 15 15 0; Recorder.click 300 10]
           Recorder.empty_store Recorder.store0 Recorder.session0
           start_value Hev Hlen).
Defined.

Lemma output_size_and_click_order_witness :
  Forall small_point [(0, 0); (80, 0); (153, 108); (53, 108)]
  /\ sqdist (153, 108) (53, 108) < 2 ^ 24 /\ sqdist (80, 0) (0, 0) < 2 ^ 24
  /\ sqdist (80, 0) (153, 108) < 2 ^ 24 /\ sqdist (0, 0) (53, 108) < 2 ^ 24
  /\ result_bind (np_array_float32 [(0, 0); (80, 0); (153, 108); (53, 108)])
                 compute_output_size
     = Ok (100, 130)
  /\ result_bind (np_array_float32 [(153, 108); (53, 108); (0, 0); (80, 0)])
                 compute_output_size
     = Ok (100, 130)
  /\ result_bind (np_array_float32 [(80, 0); (0, 0); (53, 108); (153, 108)])
                 compute_output_size
     = Ok (100, 130)
  /\ result_bind (np_array_float32 [(80, 0); (153, 108); (53, 108); (0, 0)])
                 compute_output_size
     = Ok (130, 100).
Proof.
  assert (Hs : Forall small_point [(0, 0); (80, 0); (153, 108); (53, 108)]).
  { repeat (apply List.Forall_cons; [apply small_point_literal; cbn; lia |]).
    apply List.Forall_nil. }
  assert (D23 : sqdist (153, 108) (53, 108) < 2 ^ 24) by (vm_compute; reflexivity).
  assert (D10 : sqdist (80, 0) (0, 0) < 2 ^ 24) by (vm_compute; reflexivity).
  assert (D12 : sqdist (80, 0) (153, 108) < 2 ^ 24) by (vm_compute; reflexivity).
  assert (D03 : sqdist (0, 0) (53, 108) < 2 ^ 24) by (vm_compute; reflexivity).
  assert (E : result_bind (np_array_float32 [(0, 0); (80, 0); (153, 108); (53, 108)])
                          compute_output_size
              = Ok (100, 130)) by (vm_compute; reflexivity).
  split; [exact Hs |].
  split; [exact D23 |]. split; [exact D10 |]. split; [exact D12 |]. split; [exact D03 |].
  split; [exact E |].
  exact (output_size_and_click_order (0, 0) (80, 0) (153, 108) (53, 108) 100 130
           Hs D23 D10 D12 D03 E).
Defined.

Lemma unreadable_image_raises_before_interaction_witness :
  imread (OpenCV := Recorder.recorder)
         (replace_backslash "C:\work" +:+ "/interactive/" +:+ "missing.png")%string = None
  /\ init "C:\work" "missing.png" Recorder.store0
     = (Recorder.store0, Raise (ValueError (CannotReadImage "missing.png")))
  /\ interactive_transform (io := Recorder.recorder_io) "C:\work" "missing.png" None
       [Recorder.click 10 10] Recorder.store0
     = (Recorder.store0, [], Raise (ValueError (CannotReadImage "missing.png"))).
Proof.
  split; [reflexivity |].
  exact (unreadable_image_raises_before_interaction (io := Recorder.recorder_io)
           "C:\work" "missing.png" None [Recorder.click 10 10] Recorder.store0 eq_refl).
Defined.
